(** * Pause/resume coordination of browser-use-gemini: a shallow embedding

    The development follows [browser_use_gemini_pause.py] (the input
    handler, the pause hook and the predefined pause conditions) and
    [utils.py] (the pause manager and the advanced pause conditions).

    Python objects are records, a method is a computation in a state and
    exception monad over one record that holds every object of the running
    process, and the console and the event-loop clock are part of that
    record. A Python [str] is a Rocq [string]; its characters stand for the
    code points below 256. *)

From Stdlib Require Import String Ascii List Bool Arith Lia.
From stdpp Require Import base strings gmap list.
Import ListNotations.

Open Scope string_scope.
Open Scope list_scope.

(** ** Python strings *)

(** The double quote character, as in the literal ['type="password"']. *)
Definition dquote : string := String "034"%char EmptyString.

(** [s * n] on strings. *)
Fixpoint str_repeat (s : string) (n : nat) : string :=
  match n with
  | O => EmptyString
  | S n' => s +:+ str_repeat s n'
  end.

(** [bool(s)] for a string: true exactly when [s] is not empty. *)
Definition str_bool (s : string) : bool :=
  match s with
  | EmptyString => false
  | String _ _ => true
  end.

(** [needle in haystack]. *)
Fixpoint contains (needle haystack : string) : bool :=
  String.prefix needle haystack ||
  match haystack with
  | EmptyString => false
  | String _ rest => contains needle rest
  end.

(** [str.lower] on one code point below 256: the letters A-Z and the
    Latin-1 capitals U+00C0-U+00DE (without the sign U+00D7) move up by 32;
    every other code point is kept. *)
Definition lower_char (c : ascii) : ascii :=
  let n := nat_of_ascii c in
  if (((65 <=? n) && (n <=? 90)) ||
      ((192 <=? n) && (n <=? 222) && negb (n =? 215)))%nat
  then ascii_of_nat (n + 32)
  else c.

(** [s.lower()]. *)
Fixpoint lower (s : string) : string :=
  match s with
  | EmptyString => EmptyString
  | String c rest => String (lower_char c) (lower rest)
  end.

(** [any(term in text for term in terms)]. *)
Definition any_in (terms : list string) (text : string) : bool :=
  existsb (fun term => contains term text) terms.

(** Two characters differ at most in letter case. *)
Definition char_case_variant (a b : ascii) : Prop :=
  a = b \/ b = lower_char a \/ a = lower_char b.

(** Two strings differ only in letter case: same length, and position by
    position the characters differ at most in case. *)
Inductive case_variant : string -> string -> Prop :=
| cv_nil : case_variant EmptyString EmptyString
| cv_cons a b s t :
    char_case_variant a b -> case_variant s t ->
    case_variant (String a s) (String b t).

(** ** Exceptions and outcomes *)

Inductive exn : Type :=
| ValueError (msg : string)
| NotImplementedError (msg : string)
| EOFError
| BrowserError (msg : string).

(** What a call does: return a value or raise. *)
Inductive outcome (A : Type) : Type :=
| Return (a : A)
| Raise (e : exn).
Arguments Return {A} a.
Arguments Raise {A} e.

(** ** The external agent, as the conditions see it *)

(** [agent_obj.browser_context]: the attribute [current_url], and what
    awaiting [get_page_html()] gives (a retrieval can fail). *)
Record BrowserContext : Type := {
  current_url : string;
  get_page_html : outcome string
}.

Record Agent : Type := {
  task : string;
  browser_context : BrowserContext
}.

(** A pause condition: an awaitable predicate over the agent. The
    conditions of the library read the agent and write nothing. *)
Definition Condition : Type := Agent -> outcome bool.

(** ** Objects of the process *)

Record UserInputHandler : Type := {
  input_method : string
}.

Record PauseHook : Type := {
  agent : Agent;
  paused : bool;
  pause_conditions : list (Condition * string);
  user_input : option string;
  input_handler : UserInputHandler
}.

Section Process.

(** The type of the readings of the event-loop clock (Python floats). *)
Context {float : Type}.

(** A pause event, the dict built by [record_pause], in key order. *)
Record PauseEvent : Type := {
  url : string;
  reason : string;
  input_provided : bool;
  timestamp : float
}.

Record PauseManager : Type := {
  pause_history : list PauseEvent;
  input_history : gmap string string
}.

(** Everything a call can read or write: the hook, the pause manager, the
    console (the lines still to be typed, the chunks written so far), the
    positions of the conditions awaited so far, the reading of the
    event-loop clock, and the files. *)
Record World : Type := {
  hook : PauseHook;
  manager : PauseManager;
  stdin : list string;
  stdout : list string;
  invoked : list nat;
  loop_time : float;
  files : gmap string string
}.

(** ** The monad of Python calls *)

Definition M (A : Type) : Type := World -> outcome A * World.

Definition ret {A} (a : A) : M A := fun w => (Return a, w).

Definition raise {A} (e : exn) : M A := fun w => (Raise e, w).

Definition bind {A B} (m : M A) (k : A -> M B) : M B :=
  fun w =>
    match m w with
    | (Return a, w') => k a w'
    | (Raise e, w') => (Raise e, w')
    end.

End Process.

Arguments PauseEvent : clear implicits.
Arguments PauseManager : clear implicits.
Arguments World : clear implicits.
Arguments M : clear implicits.

Notation "x <- m ;; k" := (bind m (fun x => k))
  (at level 100, m at next level, right associativity).
Notation "m ;; k" := (bind m (fun _ => k))
  (at level 100, right associativity).

Definition nl : string := String "010"%char EmptyString.

Section Calls.

Context {float : Type}.

Local Abbreviation World := (World float).
Local Abbreviation M := (M float).

(** The outcome and the final state of a call. *)
Definition result_of {A} (r : outcome A * World) : outcome A := fst r.
Definition world_of {A} (r : outcome A * World) : World := snd r.

(** *** Field updates *)

Definition set_hook (h : PauseHook) (w : World) : World :=
  {| hook := h; manager := manager w; stdin := stdin w; stdout := stdout w;
     invoked := invoked w; loop_time := loop_time w; files := files w |}.

Definition set_manager (m : PauseManager float) (w : World) : World :=
  {| hook := hook w; manager := m; stdin := stdin w; stdout := stdout w;
     invoked := invoked w; loop_time := loop_time w; files := files w |}.

Definition set_stdin (l : list string) (w : World) : World :=
  {| hook := hook w; manager := manager w; stdin := l; stdout := stdout w;
     invoked := invoked w; loop_time := loop_time w; files := files w |}.

Definition set_stdout (l : list string) (w : World) : World :=
  {| hook := hook w; manager := manager w; stdin := stdin w; stdout := l;
     invoked := invoked w; loop_time := loop_time w; files := files w |}.

Definition set_invoked (l : list nat) (w : World) : World :=
  {| hook := hook w; manager := manager w; stdin := stdin w;
     stdout := stdout w; invoked := l; loop_time := loop_time w;
     files := files w |}.

Definition set_files (fs : gmap string string) (w : World) : World :=
  {| hook := hook w; manager := manager w; stdin := stdin w;
     stdout := stdout w; invoked := invoked w; loop_time := loop_time w;
     files := fs |}.

Definition with_paused (b : bool) (h : PauseHook) : PauseHook :=
  {| agent := agent h; paused := b; pause_conditions := pause_conditions h;
     user_input := user_input h; input_handler := input_handler h |}.

Definition with_user_input (v : option string) (h : PauseHook) : PauseHook :=
  {| agent := agent h; paused := paused h;
     pause_conditions := pause_conditions h;
     user_input := v; input_handler := input_handler h |}.

Definition with_pause_conditions (l : list (Condition * string))
    (h : PauseHook) : PauseHook :=
  {| agent := agent h; paused := paused h; pause_conditions := l;
     user_input := user_input h; input_handler := input_handler h |}.

(** *** Primitive calls *)

(** Reading [self]. *)
Definition self : M PauseHook := fun w => (Return (hook w), w).

(** [self.paused = b]. *)
Definition set_paused (b : bool) : M unit :=
  fun w => (Return tt, set_hook (with_paused b (hook w)) w).

(** [self.user_input = v]. *)
Definition set_user_input (v : string) : M unit :=
  fun w => (Return tt, set_hook (with_user_input (Some v) (hook w)) w).

(** [print(s)]: writes [s] and a newline. *)
Definition print (s : string) : M unit :=
  fun w => (Return tt, set_stdout (stdout w ++ [s +:+ nl]) w).

(** [input(prompt)]: writes the prompt, then takes the next line of the
    console; at the end of the input it raises [EOFError]. *)
Definition input (prompt : string) : M string :=
  fun w =>
    let w1 := set_stdout (stdout w ++ [prompt]) w in
    match stdin w1 with
    | [] => (Raise EOFError, w1)
    | line :: rest => (Return line, set_stdin rest w1)
    end.

(** [await condition(agent_obj)] for the condition at position [i] of the
    registered sequence: the call is noted, and its result or exception is
    the condition's. *)
Definition await_condition (i : nat) (condition : Condition)
    (agent_obj : Agent) : M bool :=
  fun w => (condition agent_obj, set_invoked (invoked w ++ [i]) w).

(** [asyncio.get_event_loop().time()]. *)
Definition event_loop_time : M float := fun w => (Return (loop_time w), w).

(** ** [UserInputHandler] *)

(** [UserInputHandler.__init__(input_method)]. *)
Definition UserInputHandler_init (input_method : string)
    : M UserInputHandler :=
  ret {| input_method := input_method |}.

(** [UserInputHandler.get_input(prompt)]. *)
Definition get_input (this : UserInputHandler) (prompt : string) : M string :=
  if String.eqb (input_method this) "console" then
    input prompt
  else if String.eqb (input_method this) "web" then
    raise (NotImplementedError "Web-based input not yet implemented")
  else
    raise (ValueError ("Unknown input method: " +:+ input_method this)).

(** ** [PauseHook] *)

(** [PauseHook.__init__(agent, input_handler)]; without a handler the
    default console handler is built. *)
Definition PauseHook_init (agent : Agent)
    (input_handler : option UserInputHandler) : M PauseHook :=
  handler <- match input_handler with
             | Some h => ret h
             | None => UserInputHandler_init "console"
             end ;;
  ret {| agent := agent; paused := false; pause_conditions := [];
         user_input := None; input_handler := handler |}.

(** [PauseHook.handle_pause(agent_obj, message)]. *)
Definition handle_pause (agent_obj : Agent) (message : string) : M unit :=
  print (nl +:+ str_repeat "=" 50) ;;
  print ("EXECUTION PAUSED: " +:+ message) ;;
  print (str_repeat "=" 50) ;;
  this <- self ;;
  v <- get_input (input_handler this) "Enter your input: " ;;
  set_user_input v ;;
  print ("Continuing execution..." +:+ nl) ;;
  set_paused false.

(** The [for] loop of [check_pause_condition] from position [i] on. *)
Fixpoint check_from (i : nat) (conditions : list (Condition * string))
    (agent_obj : Agent) : M unit :=
  match conditions with
  | [] => ret tt
  | (condition, message) :: rest =>
      hit <- await_condition i condition agent_obj ;;
      if hit then
        set_paused true ;;
        handle_pause agent_obj message
      else
        check_from (S i) rest agent_obj
  end.

(** [PauseHook.check_pause_condition(agent_obj)]. *)
Definition check_pause_condition (agent_obj : Agent) : M unit :=
  this <- self ;;
  check_from 0 (pause_conditions this) agent_obj.

(** [PauseHook.add_pause_condition(condition, message)]. *)
Definition add_pause_condition (condition : Condition) (message : string)
    : M unit :=
  fun w =>
    (Return tt,
     set_hook
       (with_pause_conditions
          (pause_conditions (hook w) ++ [(condition, message)]) (hook w)) w).

(** ** [PauseManager] *)

(** [PauseManager.__init__()]. *)
Definition PauseManager_init : M (PauseManager float) :=
  ret {| pause_history := []; input_history := ∅ |}.

(** [PauseManager.record_pause(url, reason, user_input)]. *)
Definition record_pause (url reason user_input : string) : M unit :=
  let sanitized_input :=
    if str_bool user_input then "[INPUT PROVIDED]" else "[NO INPUT]" in
  now <- event_loop_time ;;
  let pause_event :=
    {| url := url; reason := reason;
       input_provided := str_bool user_input; timestamp := now |} in
  fun w =>
    (Return tt,
     set_manager
       {| pause_history := pause_history (manager w) ++ [pause_event];
          input_history := input_history (manager w) |} w).

(** [PauseManager.get_pause_history()]. *)
Definition get_pause_history : M (list (PauseEvent float)) :=
  fun w => (Return (pause_history (manager w)), w).

End Calls.

(** ** The pause conditions *)

(** [any(indicator in url.lower() or indicator in page_content.lower()
         for indicator in indicators)]. *)
Definition any_in_either (indicators : list string)
    (url page_content : string) : bool :=
  existsb
    (fun indicator =>
       contains indicator (lower url) ||
       contains indicator (lower page_content))
    indicators.

Module PauseConditions.

(** [PauseConditions.password_field]. *)
Definition password_field : Condition := fun agent_obj =>
  match get_page_html (browser_context agent_obj) with
  | Raise e => Raise e
  | Return page_content =>
      Return (contains ("type=" +:+ dquote +:+ "password" +:+ dquote)
                page_content)
  end.

(** [PauseConditions.login_page]. *)
Definition login_page : Condition := fun agent_obj =>
  let url := current_url (browser_context agent_obj) in
  Return (any_in ["login"; "signin"; "auth"] (lower url)).

(** [PauseConditions.custom_condition(check_function)]. *)
Definition custom_condition (check_function : Condition) : Condition :=
  fun agent_obj => check_function agent_obj.

End PauseConditions.

Module AdvancedPauseConditions.

Definition payment_indicators : list string :=
  ["credit card"; "debit card"; "card number"; "cvv"; "cvc";
   "expiration date"; "expiry date"; "billing address"].

(** [AdvancedPauseConditions.payment_form]. *)
Definition payment_form : Condition := fun agent_obj =>
  match get_page_html (browser_context agent_obj) with
  | Raise e => Raise e
  | Return page_content =>
      Return (any_in payment_indicators (lower page_content))
  end.

Definition two_factor_indicators : list string :=
  ["two-factor"; "two factor"; "2fa"; "verification code";
   "security code"; "authenticate"; "verification"].

(** [AdvancedPauseConditions.two_factor_auth]. *)
Definition two_factor_auth : Condition := fun agent_obj =>
  match get_page_html (browser_context agent_obj) with
  | Raise e => Raise e
  | Return page_content =>
      let url := current_url (browser_context agent_obj) in
      Return (any_in_either two_factor_indicators url page_content)
  end.

Definition captcha_indicators : list string :=
  ["captcha"; "recaptcha"; "i'm not a robot"; "im not a robot";
   "verify you're human"; "verify youre human"].

(** [AdvancedPauseConditions.captcha]. *)
Definition captcha : Condition := fun agent_obj =>
  match get_page_html (browser_context agent_obj) with
  | Raise e => Raise e
  | Return page_content =>
      Return (any_in captcha_indicators (lower page_content))
  end.

Definition personal_info_indicators : list string :=
  ["social security"; "ssn"; "date of birth"; "birthdate";
   "passport"; "driver's license"; "drivers license";
   "identity verification"; "government id"].

(** [AdvancedPauseConditions.personal_information_form]. *)
Definition personal_information_form : Condition := fun agent_obj =>
  match get_page_html (browser_context agent_obj) with
  | Raise e => Raise e
  | Return page_content =>
      Return (any_in personal_info_indicators (lower page_content))
  end.

End AdvancedPauseConditions.

(** ** The vocabulary of the statements *)

(** The first condition that holds for [agent_obj] is the one at position
    [k], registered with [message]; the conditions before it return false. *)
Definition first_match (conditions : list (Condition * string))
    (agent_obj : Agent) (k : nat) (message : string) : Prop :=
  (exists c, conditions !! k = Some (c, message) /\
             c agent_obj = Return true) /\
  forall j cj mj, j < k -> conditions !! j = Some (cj, mj) ->
                  cj agent_obj = Return false.

(** Every condition returns false for [agent_obj]. *)
Definition no_match (conditions : list (Condition * string))
    (agent_obj : Agent) : Prop :=
  forall j cj mj, conditions !! j = Some (cj, mj) ->
                  cj agent_obj = Return false.

(** What [handle_pause] prints before it asks for input. *)
Definition pause_banner (message : string) : list string :=
  [(nl +:+ str_repeat "=" 50) +:+ nl;
   ("EXECUTION PAUSED: " +:+ message) +:+ nl;
   str_repeat "=" 50 +:+ nl].

(** What the owning agent does with its hook: it registers a condition
    while it is set up, and its step loop calls the [before_step] hook,
    which is [check_pause_condition], once before every step. *)
Inductive hook_call : Type :=
| AddCondition (condition : Condition) (message : string)
| BeforeStep (agent_obj : Agent).

Section Vocabulary.

Context {float : Type}.

Local Abbreviation World := (World float).
Local Abbreviation M := (M float).

(** The input channel of the hook can deliver a line: it is the console
    and the console has a line left. *)
Definition input_available (w : World) : bool :=
  String.eqb (input_method (input_handler (hook w))) "console" &&
  match stdin w with
  | [] => false
  | _ :: _ => true
  end.

(** [m] leaves the observation [f] of the state as it was, whatever its
    outcome. *)
Definition keeps {A X} (f : World -> X) (m : M A) : Prop :=
  forall w, f (world_of (m w)) = f w.

(** The part of the state that is neither the console nor one of the two
    fields [paused] and [user_input] of the hook. *)
Definition outside (w : World) :=
  (agent (hook w), pause_conditions (hook w), input_handler (hook w),
   manager w, loop_time w, files w).

Definition do_call (c : hook_call) : M unit :=
  match c with
  | AddCondition condition message => add_pause_condition condition message
  | BeforeStep agent_obj => check_pause_condition agent_obj
  end.

(** A run of calls; an exception ends it, as it ends the step loop. *)
Fixpoint do_calls (calls : list hook_call) : M unit :=
  match calls with
  | [] => ret tt
  | c :: rest => do_call c ;; do_calls rest
  end.

End Vocabulary.

(** ** The scenario of [quick_demo.py] *)

Definition sign_in_page : string :=
  "<form><input type=" +:+ dquote +:+ "password" +:+ dquote +:+
  " id=" +:+ dquote +:+ "pw" +:+ dquote +:+ "></form>".

Definition robot_check_page : string :=
  "<div class=check>I'm not a robot</div>".

Definition plain_page : string := "<h1>ACME demo app</h1>".

Definition demo_agent (page : string) : Agent :=
  {| task := "Navigate to a website that requires login";
     browser_context :=
       {| current_url := "https://demo.applitools.com/";
          get_page_html := Return page |} |}.

Definition demo_conditions : list (Condition * string) :=
  [(PauseConditions.password_field,
    "Password field detected. Please enter your credentials in the browser window.");
   (PauseConditions.login_page,
    "Login page detected. You can now take control of the browser.");
   (AdvancedPauseConditions.captcha,
    "CAPTCHA detected. Please solve it manually in the browser window.")].

(** The process after the set-up of the demo: a hook for an agent whose
    input handler was built for [method], the three conditions registered,
    an empty pause manager, and [typed] waiting on the console. *)
Definition demo_world (method : string) (typed : list string) : World nat :=
  {| hook :=
       {| agent := demo_agent plain_page; paused := false;
          pause_conditions := demo_conditions;
          user_input := None;
          input_handler := {| input_method := method |} |};
     manager := {| pause_history := []; input_history := ∅ |};
     stdin := typed; stdout := []; invoked := [];
     loop_time := 0; files := ∅ |}.

(** ** Agents that differ only in letter case *)

(** The boolean reading of [char_case_variant] and [case_variant]. *)
Definition char_case_variantb (a b : ascii) : bool :=
  Ascii.eqb a b || Ascii.eqb b (lower_char a) || Ascii.eqb a (lower_char b).

Fixpoint case_variantb (s t : string) : bool :=
  match s, t with
  | EmptyString, EmptyString => true
  | String a s', String b t' => char_case_variantb a b && case_variantb s' t'
  | _, _ => false
  end.

(** Two retrievals of the page differ only in letter case: both fail with
    the same exception, or both return and the contents differ only in
    case. *)
Definition page_case_variant (p q : outcome string) : Prop :=
  match p, q with
  | Return s, Return t => case_variant s t
  | Raise e, Raise e' => e = e'
  | _, _ => False
  end.

Definition agent_case_variant (a b : Agent) : Prop :=
  case_variant (current_url (browser_context a))
               (current_url (browser_context b)) /\
  page_case_variant (get_page_html (browser_context a))
                    (get_page_html (browser_context b)).

(** An agent on [page_url] whose page is [page]. *)
Definition agent_at (page_url page : string) : Agent :=
  {| task := "Log into a website and perform some actions";
     browser_context :=
       {| current_url := page_url; get_page_html := Return page |} |}.

Definition password_marker : string :=
  "type=" +:+ dquote +:+ "password" +:+ dquote.

Definition shouting_sign_in_page : string :=
  "<FORM><INPUT TYPE=" +:+ dquote +:+ "PASSWORD" +:+ dquote +:+
  " ID=" +:+ dquote +:+ "PW" +:+ dquote +:+ "></FORM>".

(** ** The detectors of [utils.py] *)

Module PasswordFieldDetector.

Definition password_indicators : list string :=
  ["id=" +:+ dquote +:+ "password" +:+ dquote; "id='password'";
   "name=" +:+ dquote +:+ "password" +:+ dquote; "name='password'";
   "id=" +:+ dquote +:+ "pwd" +:+ dquote; "id='pwd'";
   "name=" +:+ dquote +:+ "pwd" +:+ dquote; "name='pwd'";
   "id=" +:+ dquote +:+ "pass" +:+ dquote; "id='pass'";
   "name=" +:+ dquote +:+ "pass" +:+ dquote; "name='pass'"].

Definition password_labels : list string :=
  [">Password<"; ">password<"; ">Pass<"; ">pass<";
   ">Enter password<"; ">Enter your password<"].

(** [PasswordFieldDetector.detect_password_field]; each [for] loop that
    returns [True] at its first hit is an [any_in]. *)
Definition detect_password_field : Condition := fun agent_obj =>
  match get_page_html (browser_context agent_obj) with
  | Raise e => Raise e
  | Return page_content =>
      if contains ("type=" +:+ dquote +:+ "password" +:+ dquote) page_content
         || contains "type='password'" page_content
      then Return true
      else if any_in password_indicators page_content then Return true
      else if any_in password_labels page_content then Return true
      else Return false
  end.

End PasswordFieldDetector.

Module SensitivePageDetector.

Definition login_indicators : list string :=
  ["login"; "signin"; "sign-in"; "log-in"; "auth"].

Definition payment_indicators : list string :=
  ["payment"; "checkout"; "billing"; "credit card"; "creditcard";
   "card number"; "cvv"; "cvc"; "expiration date"].

Definition personal_info_indicators : list string :=
  ["address"; "personal"; "profile"; "account details";
   "social security"; "ssn"; "date of birth"; "birthdate"].

Definition two_factor_indicators : list string :=
  ["two-factor"; "two factor"; "2fa"; "verification code";
   "security code"; "authenticate"; "verification"].

(** [results[key] = True] when [hit], as each [if] of the detector does. *)
Definition mark (key : string) (hit : bool) (results : gmap string bool)
    : gmap string bool :=
  if hit then <[key := true]> results else results.

(** [SensitivePageDetector.detect_sensitive_page]: the dict of the four
    detection results. The URL is read, then the page is awaited. *)
Definition detect_sensitive_page (agent_obj : Agent)
    : outcome (gmap string bool) :=
  let url := current_url (browser_context agent_obj) in
  match get_page_html (browser_context agent_obj) with
  | Raise e => Raise e
  | Return page_content =>
      let results : gmap string bool :=
        <["login_page" := false]>
          (<["payment_page" := false]>
             (<["personal_info_page" := false]>
                (<["two_factor_auth_page" := false]> ∅))) in
      let results :=
        mark "login_page" (any_in login_indicators (lower url)) results in
      let results :=
        mark "payment_page"
             (any_in_either payment_indicators url page_content) results in
      let results :=
        mark "personal_info_page"
             (any_in_either personal_info_indicators url page_content)
             results in
      let results :=
        mark "two_factor_auth_page"
             (any_in_either two_factor_indicators url page_content)
             results in
      Return results
  end.

End SensitivePageDetector.

(** ** Recording over time and saving *)

(** The registered conditions before position [k] return false and the
    one at position [k] raises [e]. *)
Definition first_raise (conditions : list (Condition * string))
    (agent_obj : Agent) (k : nat) (e : exn) : Prop :=
  (exists c message, conditions !! k = Some (c, message) /\
                     c agent_obj = Raise e) /\
  forall j cj mj, j < k -> conditions !! j = Some (cj, mj) ->
                  cj agent_obj = Return false.

Section Persistence.

Context {float : Type}.

Local Abbreviation World := (World float).
Local Abbreviation M := (M float).

(** The text [json.dump(history, f, indent=2)] writes for a history; the
    encoder belongs to Python's library and is taken as given. *)
Variable json_dumps : list (PauseEvent float) -> string.

(** [with open(filename, 'w') as f: f.write(text)]: the file is created or
    truncated, then holds [text]. Every path is taken to be writable. *)
Definition write_text (filename text : string) : M unit :=
  fun w => (Return tt, set_files (<[filename := text]> (files w)) w).

(** [PauseManager.save_history(filename)]. *)
Definition save_history (filename : string) : M unit :=
  history <- get_pause_history ;;
  write_text filename (json_dumps history).

(** The event loop's clock moves on to the reading [t]. *)
Definition clock_reads (t : float) : M unit :=
  fun w =>
    (Return tt,
     {| hook := hook w; manager := manager w; stdin := stdin w;
        stdout := stdout w; invoked := invoked w; loop_time := t;
        files := files w |}).

(** One pause to record: the clock reading when it is recorded, and the
    arguments of [record_pause]. *)
Record pause_record : Type := {
  pr_time : float;
  pr_url : string;
  pr_reason : string;
  pr_input : string
}.

(** The event [record_pause] stores for a pause. *)
Definition event_of (p : pause_record) : PauseEvent float :=
  {| url := pr_url p; reason := pr_reason p;
     input_provided := str_bool (pr_input p); timestamp := pr_time p |}.

(** The pauses are recorded one after the other, each at its time. *)
Fixpoint record_all (pauses : list pause_record) : M unit :=
  match pauses with
  | [] => ret tt
  | p :: rest =>
      clock_reads (pr_time p) ;;
      record_pause (pr_url p) (pr_reason p) (pr_input p) ;;
      record_all rest
  end.

(** The state after one pause has been recorded at its time. *)
Definition recorded (p : pause_record) (w : World) : World :=
  {| hook := hook w;
     manager :=
       {| pause_history := pause_history (manager w) ++ [event_of p];
          input_history := input_history (manager w) |};
     stdin := stdin w; stdout := stdout w; invoked := invoked w;
     loop_time := pr_time p; files := files w |}.

(** The state with another sequence of registered conditions. *)
Definition with_conditions (l : list (Condition * string)) (w : World)
    : World :=
  set_hook (with_pause_conditions l (hook w)) w.

(** What recording leaves alone. *)
Definition beside_manager (w : World) :=
  (hook w, stdin w, stdout w, invoked w, files w).

End Persistence.

(** * Properties *)

Section HookProperties.

Context {float : Type}.

Local Abbreviation World := (World float).
Local Abbreviation M := (M float).

(** ** How observations are kept *)

Lemma keeps_ret {A X} (f : World -> X) (a : A) : keeps f (ret a).
Proof. intros w. reflexivity. Qed.

Lemma keeps_raise {A X} (f : World -> X) (e : exn) : keeps f (@raise _ A e).
Proof. intros w. reflexivity. Qed.

Lemma keeps_bind {A B X} (f : World -> X) (m : M A) (k : A -> M B) :
  keeps f m -> (forall a, keeps f (k a)) -> keeps f (bind m k).
Proof.
  intros Hm Hk w. unfold bind, world_of.
  specialize (Hm w). unfold world_of in Hm.
  destruct (m w) as [[a|e] w1]; cbn in *.
  - rewrite <- Hm. apply Hk.
  - exact Hm.
Qed.

Lemma keeps_outside_input s : keeps (@outside float) (input s).
Proof. intros w. unfold input. cbn. destruct (stdin w); reflexivity. Qed.

Lemma keeps_outside_get_input h s : keeps (@outside float) (get_input h s).
Proof.
  unfold get_input.
  destruct (String.eqb _ "console"); [apply keeps_outside_input|].
  destruct (String.eqb _ "web"); apply keeps_raise.
Qed.

Lemma keeps_outside_handle_pause a msg : keeps (@outside float) (handle_pause a msg).
Proof.
  unfold handle_pause.
  repeat (apply keeps_bind; [|intros ?]);
    try apply keeps_outside_get_input; intros w; reflexivity.
Qed.

Lemma keeps_outside_check_from conds a :
  forall i, keeps (@outside float) (check_from i conds a).
Proof.
  induction conds as [|[c msg] rest IH]; intros i; cbn.
  - apply keeps_ret.
  - apply keeps_bind; [intros w; reflexivity|].
    intros [|]; [|apply IH].
    apply keeps_bind; [intros w; reflexivity|].
    intros _. apply keeps_outside_handle_pause.
Qed.

Lemma keeps_outside_check a : keeps (@outside float) (check_pause_condition a).
Proof.
  unfold check_pause_condition. apply keeps_bind; [intros w; reflexivity|].
  intros h. apply keeps_outside_check_from.
Qed.

Lemma keeps_invoked_handle_pause a msg :
  keeps (@invoked float) (handle_pause a msg).
Proof.
  unfold handle_pause, get_input.
  repeat (apply keeps_bind; [|intros ?]); try (intros w; reflexivity).
  destruct (String.eqb _ "console").
  - intros w. unfold input. cbn. destruct (stdin w); reflexivity.
  - destruct (String.eqb _ "web"); apply keeps_raise.
Qed.

(** ** What an evaluation does, case by case *)

Lemma set_invoked_same (w : World) : set_invoked (invoked w) w = w.
Proof. destruct w; reflexivity. Qed.

Lemma check_from_cons i c m rest a (w : World) :
  check_from i ((c, m) :: rest) a w =
  let w1 := set_invoked (invoked w ++ [i]) w in
  match c a with
  | Return true => (set_paused true ;; handle_pause a m) w1
  | Return false => check_from (S i) rest a w1
  | Raise e => (Raise e, w1)
  end.
Proof.
  cbn [check_from]. unfold bind at 1, await_condition.
  destruct (c a) as [[|]|e]; reflexivity.
Qed.

Lemma check_from_no_match conds a :
  no_match conds a ->
  forall i (w : World),
    check_from i conds a w =
    (Return tt, set_invoked (invoked w ++ seq i (length conds)) w).
Proof.
  induction conds as [|[c msg] rest IH]; intros Hno i w.
  - cbn. rewrite app_nil_r, set_invoked_same. reflexivity.
  - rewrite check_from_cons, (Hno 0 c msg eq_refl). cbn zeta.
    rewrite IH by (intros j cj mj Hj; exact (Hno (S j) cj mj Hj)).
    cbn [invoked set_invoked length seq].
    rewrite <- app_assoc. reflexivity.
Qed.

Lemma check_from_first_match conds a :
  forall k msg, first_match conds a k msg ->
  forall i (w : World),
    check_from i conds a w =
    (set_paused true ;; handle_pause a msg)
      (set_invoked (invoked w ++ seq i (S k)) w).
Proof.
  induction conds as [|[c m] rest IH];
    intros k msg [[ck [Hk Hck]] Hbefore] i w.
  - rewrite lookup_nil in Hk. discriminate.
  - rewrite check_from_cons. destruct k as [|k]; cbn in Hk.
    + injection Hk as -> ->. rewrite Hck. reflexivity.
    + rewrite (Hbefore 0 c m ltac:(lia) eq_refl). cbn zeta.
      rewrite (IH k msg).
      * cbn [invoked set_invoked seq]. rewrite <- app_assoc. reflexivity.
      * split; [exists ck; auto|].
        intros j cj mj Hj Hl. apply (Hbefore (S j) cj mj); [lia|exact Hl].
Qed.

(** A pause that gets its line from the console. *)
Lemma handle_pause_console a msg (w : World) line rest :
  input_method (input_handler (hook w)) = "console" ->
  stdin w = line :: rest ->
  handle_pause a msg w =
  (Return tt,
   set_hook (with_paused false (with_user_input (Some line) (hook w)))
     (set_stdin rest
        (set_stdout
           (stdout w ++ pause_banner msg ++
            ["Enter your input: "; ("Continuing execution..." +:+ nl) +:+ nl])
           w))).
Proof.
  intros Hm Hin.
  unfold handle_pause, bind, print, self, get_input, set_user_input,
    set_paused, input. cbn.
  rewrite Hm. cbn. rewrite Hin. cbn.
  repeat rewrite <- app_assoc. reflexivity.
Qed.

(** A pause whose input channel fails: the exception leaves [handle_pause]
    before [self.paused = False] is reached, and the hook is as it was on
    entry. *)
Lemma handle_pause_fails a msg (w : World) :
  input_available w = false ->
  exists e w1, handle_pause a msg w = (Raise e, w1) /\ hook w1 = hook w.
Proof.
  unfold input_available, handle_pause, bind, print, self, get_input,
    set_user_input, set_paused, input, raise. cbn.
  destruct (String.eqb _ "console"); cbn.
  - destruct (stdin w); [|discriminate]. cbn. eauto.
  - destruct (String.eqb _ "web"); cbn; eauto.
Qed.

Lemma handle_pause_returns a msg (w w' : World) :
  handle_pause a msg w = (Return tt, w') -> paused (hook w') = false.
Proof.
  unfold handle_pause, bind, print, self, get_input, set_user_input,
    set_paused, input, raise. cbn.
  destruct (String.eqb _ "console").
  - cbn. destruct (stdin w); cbn; intros H; inversion H; reflexivity.
  - destruct (String.eqb _ "web"); cbn; discriminate.
Qed.

Lemma check_from_returns conds a :
  forall i (w w' : World),
    paused (hook w) = false ->
    check_from i conds a w = (Return tt, w') ->
    paused (hook w') = false.
Proof.
  induction conds as [|[c m] rest IH]; intros i w w' Hp.
  - cbn. unfold ret. intros H; inversion H; subst; exact Hp.
  - rewrite check_from_cons. cbn zeta.
    destruct (c a) as [[|]|e]; [| |discriminate].
    + unfold bind at 1, set_paused. apply handle_pause_returns.
    + apply IH. exact Hp.
Qed.

Lemma check_unfold a (w : World) :
  check_pause_condition a w = check_from 0 (pause_conditions (hook w)) a w.
Proof. reflexivity. Qed.

(** One evaluation keeps the hook running when it returns. *)
Lemma check_returns_running a (w w' : World) :
  paused (hook w) = false ->
  check_pause_condition a w = (Return tt, w') ->
  paused (hook w') = false.
Proof.
  rewrite check_unfold. apply check_from_returns.
Qed.

Lemma add_keeps_paused c m (w : World) :
  paused (hook (world_of (add_pause_condition c m w))) = paused (hook w).
Proof. reflexivity. Qed.

(** The console output of an evaluation: nothing, or the banner of a
    registered message and what follows it. *)
Lemma check_from_stdout conds a :
  forall i (w : World),
    stdout (world_of (check_from i conds a w)) = stdout w \/
    exists c msg tail,
      In (c, msg) conds /\
      stdout (world_of (check_from i conds a w)) =
      stdout w ++ pause_banner msg ++ tail.
Proof.
  induction conds as [|[c m] rest IH]; intros i w.
  - left. reflexivity.
  - rewrite check_from_cons. cbn zeta.
    destruct (c a) as [[|]|e].
    + right. exists c, m.
      unfold bind at 1, set_paused.
      unfold handle_pause, bind, print, self, get_input, set_user_input,
        set_paused, input, raise. cbn.
      destruct (String.eqb _ "console"); cbn.
      * destruct (stdin w); cbn; eexists; (split; [left; reflexivity|]);
          repeat rewrite <- app_assoc; cbn; reflexivity.
      * destruct (String.eqb _ "web"); cbn; exists [];
          (split; [left; reflexivity|]);
          repeat rewrite <- app_assoc; cbn; reflexivity.
    + destruct (IH (S i) (set_invoked (invoked w ++ [i]) w))
        as [H|(c' & m' & tail & Hin & H)].
      * left. exact H.
      * right. exists c', m', tail. split; [right; exact Hin|exact H].
    + left. reflexivity.
Qed.

(** A run that returns has returned from each of its parts. *)
Lemma do_calls_app pre post (w w' : World) :
  do_calls (pre ++ post) w = (Return tt, w') ->
  exists w1, do_calls pre w = (Return tt, w1) /\
             do_calls post w1 = (Return tt, w').
Proof.
  revert w. induction pre as [|c pre IH]; intros w; cbn [do_calls app].
  - intros H. exists w. split; [reflexivity|exact H].
  - unfold bind at 1. intros H.
    destruct (do_call c w) as [[[]|e] w0] eqn:Hc; [|discriminate].
    destruct (IH w0 H) as (w1 & Hpre & Hpost).
    exists w1. split; [|exact Hpost].
    unfold bind at 1. rewrite Hc. exact Hpre.
Qed.

Lemma do_calls_running calls :
  forall (w w' : World),
    paused (hook w) = false ->
    do_calls calls w = (Return tt, w') ->
    paused (hook w') = false.
Proof.
  induction calls as [|c rest IH]; intros w w' Hp; cbn.
  - unfold ret. intros H; inversion H; subst; exact Hp.
  - unfold bind at 1. destruct (do_call c w) as [[[]|e] w0] eqn:Hc;
      [|discriminate].
    apply IH. destruct c as [cond msg|a]; cbn in Hc.
    + inversion Hc; subst. exact Hp.
    + exact (check_returns_running a w w0 Hp Hc).
Qed.

(** ** The claims about the hook *)

(** C2. When the conditions at positions 0..k-1 return false for the agent
    and the condition at position k returns true, an evaluation awaits the
    conditions at positions 0, 1, ..., k, each once and in this order, and
    no condition at a later position. *)
Theorem evaluate_short_circuits (w : World) (agent_obj : Agent)
    (k : nat) (message : string) :
  first_match (pause_conditions (hook w)) agent_obj k message ->
  invoked (world_of (check_pause_condition agent_obj w)) =
  invoked w ++ seq 0 (S k).
Proof.
  intros Hfirst. rewrite check_unfold.
  rewrite (check_from_first_match _ _ _ _ Hfirst).
  assert (Hk : keeps (@invoked float)
                 (set_paused true ;; handle_pause agent_obj message)).
  { apply keeps_bind; [intros ?; reflexivity|].
    intros _. apply keeps_invoked_handle_pause. }
  rewrite Hk. reflexivity.
Qed.

(** While no call has raised, the flag is down between the steps: from a
    hook that is not paused, as [PauseHook.__init__] builds it, a run of
    registrations and steps that returns normally ends with [paused]
    false, and each of its steps starts with [paused] false, returns
    normally and ends with [paused] false, whether or not the step paused.
    A hook that a failed input left paused is outside this statement. *)
Theorem paused_false_at_step_boundaries (calls : list hook_call)
    (w : World) :
  paused (hook w) = false ->
  result_of (do_calls calls w) = Return tt ->
  paused (hook (world_of (do_calls calls w))) = false /\
  forall pre agent_obj post,
    calls = pre ++ BeforeStep agent_obj :: post ->
    result_of (do_calls pre w) = Return tt /\
    paused (hook (world_of (do_calls pre w))) = false /\
    result_of (check_pause_condition agent_obj (world_of (do_calls pre w))) =
      Return tt /\
    paused (hook (world_of (check_pause_condition agent_obj
                              (world_of (do_calls pre w))))) = false.
Proof.
  intros Hp Hres.
  assert (Hrun : do_calls calls w = (Return tt, world_of (do_calls calls w))).
  { destruct (do_calls calls w) as [r w']. cbn in Hres |- *. congruence. }
  split; [exact (do_calls_running calls w _ Hp Hrun)|].
  intros pre a post Hcalls. rewrite Hcalls in Hrun.
  destruct (do_calls_app _ _ _ _ Hrun) as (w1 & Hpre & Hpost).
  cbn [do_calls do_call] in Hpost. unfold bind at 1 in Hpost.
  destruct (check_pause_condition a w1) as [[[]|e] w2] eqn:Hstep;
    [|discriminate].
  assert (Hp1 : paused (hook w1) = false)
    by exact (do_calls_running pre w w1 Hp Hpre).
  rewrite Hpre. cbn [result_of world_of fst snd]. rewrite Hstep.
  repeat split; auto.
  exact (check_returns_running a w1 w2 Hp1 Hstep).
Qed.

(** C4, the general form of the defect: when a condition matches and the
    input channel cannot deliver, the evaluation raises and leaves
    [paused] true. *)
Theorem failed_input_leaves_paused (w : World) (agent_obj : Agent)
    (k : nat) (message : string) :
  first_match (pause_conditions (hook w)) agent_obj k message ->
  input_available w = false ->
  exists e w',
    check_pause_condition agent_obj w = (Raise e, w') /\
    paused (hook w') = true.
Proof.
  intros Hfirst Hin. rewrite check_unfold.
  rewrite (check_from_first_match _ _ _ _ Hfirst).
  unfold bind at 1, set_paused.
  match goal with |- context [handle_pause _ _ ?w0] =>
    destruct (handle_pause_fails agent_obj message w0 Hin)
      as (e & w1 & Hh & Hw1)
  end.
  exists e, w1. rewrite Hh. split; [reflexivity|].
  rewrite Hw1. reflexivity.
Qed.

(** C10. Whatever its outcome, an evaluation leaves the agent held by the
    hook, the registered conditions, the input handler, the pause manager,
    the clock and the files as they were; on the console it only appends,
    and what it appends is nothing or starts with the banner of a
    registered message; when no condition matches it changes neither the
    hook nor the console. *)
Theorem evaluate_frame (w : World) (agent_obj : Agent) :
  agent (hook (world_of (check_pause_condition agent_obj w))) =
    agent (hook w) /\
  pause_conditions (hook (world_of (check_pause_condition agent_obj w))) =
    pause_conditions (hook w) /\
  input_handler (hook (world_of (check_pause_condition agent_obj w))) =
    input_handler (hook w) /\
  manager (world_of (check_pause_condition agent_obj w)) = manager w /\
  loop_time (world_of (check_pause_condition agent_obj w)) = loop_time w /\
  files (world_of (check_pause_condition agent_obj w)) = files w /\
  (stdout (world_of (check_pause_condition agent_obj w)) = stdout w \/
   exists c msg tail,
     In (c, msg) (pause_conditions (hook w)) /\
     stdout (world_of (check_pause_condition agent_obj w)) =
     stdout w ++ pause_banner msg ++ tail) /\
  (no_match (pause_conditions (hook w)) agent_obj ->
   hook (world_of (check_pause_condition agent_obj w)) = hook w /\
   stdout (world_of (check_pause_condition agent_obj w)) = stdout w /\
   stdin (world_of (check_pause_condition agent_obj w)) = stdin w).
Proof.
  pose proof (keeps_outside_check agent_obj w) as Hout.
  unfold outside in Hout. injection Hout as Ha Hc Hh Hm Ht Hf.
  repeat (split; [assumption|]).
  split.
  - rewrite check_unfold. apply check_from_stdout.
  - intros Hno. rewrite check_unfold.
    rewrite (check_from_no_match _ _ Hno). repeat split.
Qed.

(** C1, as amended. An evaluation appends no pause event, whether or not
    a condition matches; a pause event is appended by a call of
    [record_pause], which appends exactly one, with the given url and
    reason, [input_provided] telling whether the input is non-empty, and
    the clock reading of that call; and an evaluation in which a condition
    matches and the console delivers a line returns with that line in
    [user_input] and [paused] false. *)
Theorem evaluate_records_nothing (w : World) (agent_obj : Agent)
    (page_url why typed : string) :
  pause_history (manager (world_of (check_pause_condition agent_obj w))) =
    pause_history (manager w) /\
  record_pause page_url why typed w =
    (Return tt,
     set_manager
       {| pause_history :=
            pause_history (manager w) ++
            [{| url := page_url; reason := why;
                input_provided := str_bool typed;
                timestamp := loop_time w |}];
          input_history := input_history (manager w) |} w) /\
  (forall k message line rest,
     first_match (pause_conditions (hook w)) agent_obj k message ->
     input_method (input_handler (hook w)) = "console" ->
     stdin w = line :: rest ->
     result_of (check_pause_condition agent_obj w) = Return tt /\
     user_input (hook (world_of (check_pause_condition agent_obj w))) =
       Some line /\
     paused (hook (world_of (check_pause_condition agent_obj w))) = false).
Proof.
  split; [|split].
  - pose proof (keeps_outside_check agent_obj w) as Hout.
    unfold outside in Hout. injection Hout as _ _ _ Hm _ _.
    rewrite Hm. reflexivity.
  - reflexivity.
  - intros k message line rest Hfirst Hm Hin.
    rewrite check_unfold.
    rewrite (check_from_first_match _ _ _ _ Hfirst).
    unfold bind, set_paused.
    erewrite handle_pause_console by (cbn; eassumption).
    repeat split.
Qed.

(** C5, as amended. For a kind that is neither console nor web, building
    the input handler returns the handler and changes nothing; the
    [ValueError] is raised by [get_input], at each call. *)
Theorem unknown_kind_fails_at_get_input (kind : string) (w : World)
    (prompt : string) :
  kind <> "console" -> kind <> "web" ->
  UserInputHandler_init kind w = (Return {| input_method := kind |}, w) /\
  get_input {| input_method := kind |} prompt w =
    (Raise (ValueError ("Unknown input method: " +:+ kind)), w).
Proof.
  intros Hc Hw. split; [reflexivity|].
  unfold get_input. cbn.
  destruct (String.eqb_spec kind "console") as [?|_]; [contradiction|].
  destruct (String.eqb_spec kind "web") as [?|_]; [contradiction|].
  reflexivity.
Qed.

End HookProperties.

(** ** The hook on the demo scenario *)

Definition captcha_message : string :=
  "CAPTCHA detected. Please solve it manually in the browser window.".

Definition password_message : string :=
  "Password field detected. Please enter your credentials in the browser window.".

Lemma demo_first_match_captcha :
  first_match demo_conditions (demo_agent robot_check_page) 2 captcha_message.
Proof.
  split.
  - exists AdvancedPauseConditions.captcha.
    split; [reflexivity|vm_compute; reflexivity].
  - intros j cj mj Hj Hl.
    destruct j as [|[|j]]; [| |lia]; cbn in Hl; inversion Hl;
      vm_compute; reflexivity.
Defined.

Lemma demo_first_match_password :
  first_match demo_conditions (demo_agent sign_in_page) 0 password_message.
Proof.
  split.
  - exists PauseConditions.password_field.
    split; [reflexivity|vm_compute; reflexivity].
  - intros j cj mj Hj Hl. lia.
Defined.

(** C2 on the demo: on a page that shows only a robot check, the three
    conditions are awaited in order. *)
Lemma evaluate_short_circuits_witness :
  first_match (pause_conditions (hook (demo_world "console" ["done"])))
    (demo_agent robot_check_page) 2 captcha_message /\
  invoked (world_of (check_pause_condition (demo_agent robot_check_page)
                       (demo_world "console" ["done"]))) = [0; 1; 2].
Proof.
  split; [exact demo_first_match_captcha|].
  exact (evaluate_short_circuits (demo_world "console" ["done"])
           (demo_agent robot_check_page) 2 captcha_message
           demo_first_match_captcha).
Defined.

(** On a page with a password field only the first condition is awaited. *)
Example short_circuit_at_first :
  invoked (world_of (check_pause_condition (demo_agent sign_in_page)
                       (demo_world "console" ["hunter2"]))) = [0].
Proof. vm_compute. reflexivity. Qed.

Definition two_steps : list hook_call :=
  [BeforeStep (demo_agent sign_in_page); BeforeStep (demo_agent plain_page)].

(** On the demo: a step that pauses for a password and a step that does
    not pause. *)
Lemma paused_false_at_step_boundaries_witness :
  paused (hook (demo_world "console" ["hunter2"])) = false /\
  result_of (do_calls two_steps (demo_world "console" ["hunter2"])) =
    Return tt /\
  paused (hook (world_of (do_calls two_steps
                            (demo_world "console" ["hunter2"])))) = false.
Proof.
  assert (Hres : result_of (do_calls two_steps
                              (demo_world "console" ["hunter2"])) = Return tt)
    by (vm_compute; reflexivity).
  split; [reflexivity|]. split; [exact Hres|].
  exact (proj1 (paused_false_at_step_boundaries two_steps
                  (demo_world "console" ["hunter2"]) eq_refl Hres)).
Defined.

(** C4, at a failing input. The agent was built with [input_method="web"]
    and the page has a password field: the evaluation raises
    [NotImplementedError] and the hook stays paused; the next evaluation,
    on a page where no condition holds, returns normally and the hook is
    still paused. With the console at the end of its input the evaluation
    raises [EOFError] and the hook stays paused as well. *)
Theorem failed_pause_stays_paused :
  result_of (check_pause_condition (demo_agent sign_in_page)
               (demo_world "web" [])) =
    Raise (NotImplementedError "Web-based input not yet implemented") /\
  paused (hook (world_of (check_pause_condition (demo_agent sign_in_page)
                            (demo_world "web" [])))) = true /\
  result_of (check_pause_condition (demo_agent plain_page)
               (world_of (check_pause_condition (demo_agent sign_in_page)
                            (demo_world "web" [])))) = Return tt /\
  paused (hook (world_of
                  (check_pause_condition (demo_agent plain_page)
                     (world_of (check_pause_condition
                                  (demo_agent sign_in_page)
                                  (demo_world "web" [])))))) = true /\
  result_of (check_pause_condition (demo_agent sign_in_page)
               (demo_world "console" [])) = Raise EOFError /\
  paused (hook (world_of (check_pause_condition (demo_agent sign_in_page)
                            (demo_world "console" [])))) = true.
Proof. repeat split; vm_compute; reflexivity. Qed.

(** The process after a step on [page] whose pause could not get its
    input: the hook of [demo_world method []] has evaluated the conditions
    for [page] once. *)
Definition after_step (method page : string) : World nat :=
  world_of (check_pause_condition (demo_agent page) (demo_world method [])).

(** C3, at a failing input. The hook starts with [paused] false. The agent
    was built with [input_method="web"] and the first step finds a robot
    check: the call raises and leaves [paused] true. The caller goes on
    and the next step, on a page where none of the three conditions
    holds, starts with [paused] true, awaits the three conditions, prints
    nothing, returns normally and ends with [paused] true. The same
    happens with the console at the end of its input, where the first
    call raises [EOFError]. *)
Theorem quiet_step_returns_paused :
  paused (hook (demo_world "web" [])) = false /\
  result_of (check_pause_condition (demo_agent robot_check_page)
               (demo_world "web" [])) =
    Raise (NotImplementedError "Web-based input not yet implemented") /\
  paused (hook (after_step "web" robot_check_page)) = true /\
  result_of (check_pause_condition (demo_agent plain_page)
               (after_step "web" robot_check_page)) = Return tt /\
  invoked (world_of (check_pause_condition (demo_agent plain_page)
                       (after_step "web" robot_check_page))) =
    invoked (after_step "web" robot_check_page) ++ [0; 1; 2] /\
  stdout (world_of (check_pause_condition (demo_agent plain_page)
                      (after_step "web" robot_check_page))) =
    stdout (after_step "web" robot_check_page) /\
  paused (hook (world_of (check_pause_condition (demo_agent plain_page)
                            (after_step "web" robot_check_page)))) = true /\
  paused (hook (demo_world "console" [])) = false /\
  result_of (check_pause_condition (demo_agent sign_in_page)
               (demo_world "console" [])) = Raise EOFError /\
  paused (hook (after_step "console" sign_in_page)) = true /\
  result_of (check_pause_condition (demo_agent plain_page)
               (after_step "console" sign_in_page)) = Return tt /\
  paused (hook (world_of (check_pause_condition (demo_agent plain_page)
                            (after_step "console" sign_in_page)))) = true.
Proof. repeat split; vm_compute; reflexivity. Qed.

(** C1, refuted as stated: the password condition matches, the user types
    a line, the evaluation returns, and the pause history has not grown by
    an event. *)
Lemma evaluate_appends_no_event :
  first_match (pause_conditions (hook (demo_world "console" ["hunter2"])))
    (demo_agent sign_in_page) 0 password_message /\
  result_of (check_pause_condition (demo_agent sign_in_page)
               (demo_world "console" ["hunter2"])) = Return tt /\
  ~ exists event,
      pause_history
        (manager (world_of (check_pause_condition (demo_agent sign_in_page)
                              (demo_world "console" ["hunter2"])))) =
      pause_history (manager (demo_world "console" ["hunter2"])) ++ [event].
Proof.
  split; [exact demo_first_match_password|].
  split; [vm_compute; reflexivity|].
  intros [event H]. vm_compute in H. discriminate H.
Qed.

(** C5, refuted as stated: an input handler of an unknown kind is built
    without an exception; the [ValueError] comes from [get_input]. *)
Lemma unknown_kind_is_constructed :
  (~ exists e, result_of (UserInputHandler_init "telepathy"
                            (demo_world "console" [])) = Raise e) /\
  result_of (UserInputHandler_init "telepathy" (demo_world "console" [])) =
    Return {| input_method := "telepathy" |} /\
  result_of (get_input {| input_method := "telepathy" |} "Enter your input: "
               (demo_world "console" ["hunter2"])) =
    Raise (ValueError "Unknown input method: telepathy").
Proof.
  split; [|split; vm_compute; reflexivity].
  intros [e H]. discriminate H.
Qed.

Lemma unknown_kind_fails_at_get_input_witness :
  "telepathy" <> "console" /\ "telepathy" <> "web" /\
  UserInputHandler_init "telepathy" (demo_world "console" ["hunter2"]) =
    (Return {| input_method := "telepathy" |},
     demo_world "console" ["hunter2"]) /\
  get_input {| input_method := "telepathy" |} "Enter your input: "
    (demo_world "console" ["hunter2"]) =
    (Raise (ValueError "Unknown input method: telepathy"),
     demo_world "console" ["hunter2"]).
Proof.
  assert (H1 : "telepathy" <> "console") by discriminate.
  assert (H2 : "telepathy" <> "web") by discriminate.
  split; [exact H1|]. split; [exact H2|].
  exact (unknown_kind_fails_at_get_input "telepathy"
           (demo_world "console" ["hunter2"]) "Enter your input: " H1 H2).
Defined.

(** ** The pause conditions *)

(** *** Substrings *)

Lemma prefix_spec (n h : string) :
  String.prefix n h = true <-> exists post, h = n +:+ post.
Proof.
  revert h. induction n as [|c n IH]; intros h.
  - split; [intros _; exists h; reflexivity|].
    intros _. destruct h; reflexivity.
  - destruct h as [|d h]; cbn.
    + split; [discriminate|intros [p Hp]; discriminate].
    + destruct (Ascii.ascii_dec c d) as [->|Hne].
      * rewrite IH. split; intros [p Hp]; exists p.
        -- rewrite Hp. reflexivity.
        -- injection Hp as Hp. exact Hp.
      * split; [discriminate|].
        intros [p Hp]. injection Hp as Hc _. congruence.
Qed.

(** [contains] is the substring test of [in]. *)
Lemma contains_spec (n h : string) :
  contains n h = true <-> exists pre post, h = pre +:+ n +:+ post.
Proof.
  induction h as [|d h IH]; cbn [contains].
  - rewrite orb_false_r, prefix_spec. split.
    + intros [post Hp]. exists EmptyString, post. exact Hp.
    + intros (pre & post & Hp). destruct pre; cbn in Hp.
      * exists post. exact Hp.
      * discriminate.
  - rewrite orb_true_iff, prefix_spec, IH. split.
    + intros [[post Hp]|(pre & post & Hp)].
      * exists EmptyString, post. exact Hp.
      * exists (String d pre), post. cbn. rewrite Hp. reflexivity.
    + intros (pre & post & Hp). destruct pre as [|c pre]; cbn in Hp.
      * left. exists post. exact Hp.
      * right. injection Hp as _ Hp. exists pre, post. exact Hp.
Qed.

Lemma any_in_spec (terms : list string) (text : string) :
  any_in terms text = true <->
  exists term, In term terms /\ contains term text = true.
Proof. unfold any_in. apply existsb_exists. Qed.

(** *** Letter case *)

Lemma lower_char_idempotent (c : ascii) :
  lower_char (lower_char c) = lower_char c.
Proof.
  destruct c as [[] [] [] [] [] [] [] []]; vm_compute; reflexivity.
Qed.

Lemma char_case_variant_lower (a b : ascii) :
  char_case_variant a b -> lower_char a = lower_char b.
Proof.
  intros [->|[->| ->]];
    [reflexivity|symmetry; apply lower_char_idempotent
    |apply lower_char_idempotent].
Qed.

Lemma case_variant_lower (s t : string) :
  case_variant s t -> lower s = lower t.
Proof.
  induction 1 as [|a b s t Hc _ IH]; cbn; [reflexivity|].
  rewrite (char_case_variant_lower a b Hc), IH. reflexivity.
Qed.

Lemma case_variant_length (s t : string) :
  case_variant s t -> String.length s = String.length t.
Proof. induction 1; cbn; congruence. Qed.

Lemma char_case_variantb_ok (a b : ascii) :
  char_case_variantb a b = true -> char_case_variant a b.
Proof.
  unfold char_case_variantb, char_case_variant.
  rewrite !orb_true_iff, !Ascii.eqb_eq. tauto.
Qed.

Lemma case_variantb_ok (s t : string) :
  case_variantb s t = true -> case_variant s t.
Proof.
  revert t. induction s as [|a s IH]; intros [|b t]; cbn;
    try discriminate; [constructor|].
  rewrite andb_true_iff. intros [Hc Hs].
  constructor; [apply char_case_variantb_ok; exact Hc|apply IH; exact Hs].
Qed.

(** C6, as amended. For two agents whose URLs differ only in letter case
    and whose pages differ only in letter case, the conditions login_page,
    payment_form, captcha, two_factor_auth and personal_information_form
    give the same result; password_field looks for the marker
    type="password" in the page as it is written. *)
Theorem lowering_conditions_ignore_case (a b : Agent) :
  agent_case_variant a b ->
  PauseConditions.login_page a = PauseConditions.login_page b /\
  AdvancedPauseConditions.payment_form a =
    AdvancedPauseConditions.payment_form b /\
  AdvancedPauseConditions.captcha a = AdvancedPauseConditions.captcha b /\
  AdvancedPauseConditions.two_factor_auth a =
    AdvancedPauseConditions.two_factor_auth b /\
  AdvancedPauseConditions.personal_information_form a =
    AdvancedPauseConditions.personal_information_form b /\
  (forall page, get_page_html (browser_context a) = Return page ->
     PauseConditions.password_field a =
     Return (contains password_marker page)).
Proof.
  intros [Hurl Hpage].
  apply case_variant_lower in Hurl.
  unfold PauseConditions.login_page, AdvancedPauseConditions.payment_form,
    AdvancedPauseConditions.captcha, AdvancedPauseConditions.two_factor_auth,
    AdvancedPauseConditions.personal_information_form,
    PauseConditions.password_field, any_in_either.
  unfold page_case_variant in Hpage.
  destruct (get_page_html (browser_context a)) as [s|e],
           (get_page_html (browser_context b)) as [t|e'];
    try contradiction.
  - apply case_variant_lower in Hpage. rewrite Hurl, Hpage.
    repeat split. intros page [= ->]. reflexivity.
  - subst e'. rewrite Hurl. repeat split. intros page [=].
Qed.

Lemma lowering_conditions_ignore_case_witness :
  agent_case_variant
    (agent_at "https://Example.com/SignIn" "Please enter your CVV")
    (agent_at "https://example.com/signin" "please enter your cvv") /\
  PauseConditions.login_page
    (agent_at "https://Example.com/SignIn" "Please enter your CVV") =
  PauseConditions.login_page
    (agent_at "https://example.com/signin" "please enter your cvv") /\
  AdvancedPauseConditions.payment_form
    (agent_at "https://Example.com/SignIn" "Please enter your CVV") =
  AdvancedPauseConditions.payment_form
    (agent_at "https://example.com/signin" "please enter your cvv").
Proof.
  assert (H : agent_case_variant
    (agent_at "https://Example.com/SignIn" "Please enter your CVV")
    (agent_at "https://example.com/signin" "please enter your cvv")).
  { split; cbn; apply case_variantb_ok; vm_compute; reflexivity. }
  split; [exact H|].
  pose proof (lowering_conditions_ignore_case _ _ H) as (H1 & H2 & _).
  split; [exact H1|exact H2].
Defined.

(** C6, refuted as stated: two pages that differ only in letter case, and
    password_field holds for the one and not for the other. *)
Lemma password_field_is_case_sensitive :
  agent_case_variant (demo_agent sign_in_page)
                     (demo_agent shouting_sign_in_page) /\
  PauseConditions.password_field (demo_agent sign_in_page) = Return true /\
  PauseConditions.password_field (demo_agent shouting_sign_in_page) =
    Return false.
Proof.
  split; [|split; vm_compute; reflexivity].
  split; cbn; apply case_variantb_ok; vm_compute; reflexivity.
Qed.

(** The spec's literal cases of keyword detection. *)
Example login_page_signin :
  PauseConditions.login_page
    (agent_at "https://example.com/signin" plain_page) = Return true /\
  PauseConditions.login_page
    (agent_at "https://example.com/dashboard" plain_page) = Return false.
Proof. split; vm_compute; reflexivity. Qed.

Example payment_form_cvv :
  AdvancedPauseConditions.payment_form
    (agent_at "https://example.com/" "Please enter your CVV") = Return true.
Proof. vm_compute. reflexivity. Qed.

Example captcha_robot :
  AdvancedPauseConditions.captcha
    (agent_at "https://example.com/" "I'm not a robot") = Return true.
Proof. vm_compute. reflexivity. Qed.

(** C7, as amended. When the page is retrieved, payment_form returns true
    exactly when the lower-cased page content contains one of the payment
    keywords; the URL is not consulted; a failed retrieval is raised. *)
Theorem payment_form_reads_content_only (a : Agent) :
  match get_page_html (browser_context a) with
  | Return page =>
      (AdvancedPauseConditions.payment_form a = Return true <->
       exists keyword pre post,
         In keyword AdvancedPauseConditions.payment_indicators /\
         lower page = pre +:+ keyword +:+ post) /\
      (forall other_url,
         AdvancedPauseConditions.payment_form (agent_at other_url page) =
         AdvancedPauseConditions.payment_form a) /\
      exists flag, AdvancedPauseConditions.payment_form a = Return flag
  | Raise e => AdvancedPauseConditions.payment_form a = Raise e
  end.
Proof.
  unfold AdvancedPauseConditions.payment_form, agent_at.
  cbn [get_page_html browser_context].
  destruct (get_page_html (browser_context a)) as [page|e]; [|reflexivity].
  split; [|split; [reflexivity|eexists; reflexivity]].
  split.
  - intros H0.
    assert (H : any_in AdvancedPauseConditions.payment_indicators
                  (lower page) = true) by congruence.
    apply any_in_spec in H as (kw & Hin & Hc).
    apply contains_spec in Hc as (pre & post & Hc). eauto.
  - intros (kw & pre & post & Hin & Hc). f_equal.
    apply any_in_spec. exists kw. split; [exact Hin|].
    apply contains_spec. eauto.
Qed.

(** C7, refuted as stated: the URL contains the payment keyword cvv, the
    content contains no payment keyword, and payment_form returns false. *)
Lemma payment_form_ignores_url :
  contains "cvv" (lower "https://shop.example.com/help/CVV") = true /\
  In "cvv" AdvancedPauseConditions.payment_indicators /\
  any_in AdvancedPauseConditions.payment_indicators (lower plain_page) =
    false /\
  AdvancedPauseConditions.payment_form
    (agent_at "https://shop.example.com/help/CVV" plain_page) =
    Return false.
Proof.
  split; [vm_compute; reflexivity|]. split; [cbn; tauto|].
  split; vm_compute; reflexivity.
Qed.

(** ** What the pause manager stores of an input *)

Section StoredInput.

Context {float : Type}.

Local Abbreviation World := (World float).

(** [bool(user_input)] holds exactly for the inputs that are not empty. *)
Lemma str_bool_nonempty (s : string) :
  str_bool s = negb (String.eqb s EmptyString).
Proof. destruct s; reflexivity. Qed.

(** What one [record_pause] call does to the manager, for any input. *)
Lemma record_pause_manager (w : World) (page_url why typed : string) :
  result_of (record_pause page_url why typed w) = Return tt /\
  manager (world_of (record_pause page_url why typed w)) =
    {| pause_history :=
         pause_history (manager w) ++
         [{| url := page_url; reason := why;
             input_provided := negb (String.eqb typed EmptyString);
             timestamp := loop_time w |}];
       input_history := input_history (manager w) |}.
Proof.
  split; [reflexivity|].
  unfold record_pause, bind, event_loop_time. cbn.
  rewrite str_bool_nonempty. reflexivity.
Qed.

(** C8. For every input, [record_pause] returns and appends one event
    whose [input_provided] says whether the input is non-empty, with the
    url, the reason and the clock reading of the call; the earlier events
    and [input_history] are as they were, so the manager holds no other
    trace of the input. Two calls with the same url and reason and two
    non-empty inputs, in whatever states, append events with the same
    url, the same reason and [input_provided] true: the events differ at
    most in their timestamps, and are equal when the timestamps are. *)
Theorem stored_event_keeps_a_flag_only (w w' : World)
    (page_url why any_input typed typed' : string) :
  typed <> EmptyString -> typed' <> EmptyString ->
  (result_of (record_pause page_url why any_input w) = Return tt /\
   manager (world_of (record_pause page_url why any_input w)) =
     {| pause_history :=
          pause_history (manager w) ++
          [{| url := page_url; reason := why;
              input_provided := negb (String.eqb any_input EmptyString);
              timestamp := loop_time w |}];
        input_history := input_history (manager w) |}) /\
  exists e e',
    pause_history (manager (world_of
                              (record_pause page_url why typed w))) =
      pause_history (manager w) ++ [e] /\
    pause_history (manager (world_of
                              (record_pause page_url why typed' w'))) =
      pause_history (manager w') ++ [e'] /\
    url e = url e' /\ reason e = reason e' /\
    input_provided e = true /\ input_provided e' = true /\
    (timestamp e = timestamp e' -> e = e').
Proof.
  intros Htyped Htyped'.
  split; [exact (record_pause_manager w page_url why any_input)|].
  destruct (record_pause_manager w page_url why typed) as [_ Hw].
  destruct (record_pause_manager w' page_url why typed') as [_ Hw'].
  assert (Hflag : forall s, s <> EmptyString ->
                    negb (String.eqb s EmptyString) = true).
  { intros s Hs. destruct s as [|c s]; [contradiction|reflexivity]. }
  rewrite (Hflag typed Htyped) in Hw.
  rewrite (Hflag typed' Htyped') in Hw'.
  eexists. eexists.
  split; [rewrite Hw; reflexivity|].
  split; [rewrite Hw'; reflexivity|].
  cbn. repeat split.
  intros Htime. rewrite Htime. reflexivity.
Qed.

End StoredInput.

(** The demo process when the event-loop clock reads [t]. *)
Definition demo_world_at (t : nat) : World nat :=
  world_of (clock_reads t (demo_world "console" [])).

(** C8 on the demo: two pass phrases recorded for the same page at
    different times, and an empty input. *)
Lemma stored_event_keeps_a_flag_only_witness :
  "hunter2" <> EmptyString /\
  "correct horse battery staple" <> EmptyString /\
  exists e e',
    pause_history (manager (world_of
        (record_pause "https://demo.applitools.com/"
           "Password field detected." "hunter2" (demo_world_at 3)))) =
      pause_history (manager (demo_world_at 3)) ++ [e] /\
    pause_history (manager (world_of
        (record_pause "https://demo.applitools.com/"
           "Password field detected." "correct horse battery staple"
           (demo_world_at 7)))) =
      pause_history (manager (demo_world_at 7)) ++ [e'] /\
    url e = url e' /\ reason e = reason e' /\
    input_provided e = true /\ input_provided e' = true /\
    (timestamp e = timestamp e' -> e = e').
Proof.
  assert (H1 : "hunter2" <> EmptyString) by discriminate.
  assert (H2 : "correct horse battery staple" <> EmptyString)
    by discriminate.
  split; [exact H1|]. split; [exact H2|].
  exact (proj2 (stored_event_keeps_a_flag_only (demo_world_at 3)
                  (demo_world_at 7) "https://demo.applitools.com/"
                  "Password field detected." EmptyString "hunter2"
                  "correct horse battery staple" H1 H2)).
Defined.

(** The two events of the demo do differ in their timestamps, and an empty
    input is stored as [input_provided] false. *)
Example stored_events_of_the_demo :
  pause_history (manager (world_of
      (record_pause "https://demo.applitools.com/"
         "Password field detected." "hunter2" (demo_world_at 3)))) =
    [{| url := "https://demo.applitools.com/";
        reason := "Password field detected.";
        input_provided := true; timestamp := 3 |}] /\
  pause_history (manager (world_of
      (record_pause "https://demo.applitools.com/"
         "Password field detected." "correct horse battery staple"
         (demo_world_at 7)))) =
    [{| url := "https://demo.applitools.com/";
        reason := "Password field detected.";
        input_provided := true; timestamp := 7 |}] /\
  map input_provided
    (pause_history (manager (world_of
       (record_pause "https://demo.applitools.com/"
          "Password field detected." EmptyString (demo_world_at 3))))) =
    [false].
Proof. repeat split; vm_compute; reflexivity. Qed.

(** * Further properties of the code *)

Section MoreHookProperties.

Context {float : Type}.

Local Abbreviation World := (World float).
Local Abbreviation M := (M float).

(** ** Registration order *)

Lemma first_match_app conds extra a k msg :
  first_match conds a k msg -> first_match (conds ++ extra) a k msg.
Proof.
  intros [(c & Hk & Hc) Hbefore].
  assert (Hlt : k < length conds) by (eapply lookup_lt_Some; exact Hk).
  split.
  - exists c. split; [|exact Hc]. rewrite lookup_app_l; assumption.
  - intros j cj mj Hj Hl. apply (Hbefore j cj mj Hj).
    rewrite lookup_app_l in Hl; [exact Hl|].
    eapply Nat.lt_trans; eassumption.
Qed.

Lemma first_match_last conds c m a :
  no_match conds a -> c a = Return true ->
  first_match (conds ++ [(c, m)]) a (length conds) m.
Proof.
  intros Hno Hc. split.
  - exists c. split; [|exact Hc].
    rewrite lookup_app_r by apply Nat.le_refl.
    rewrite Nat.sub_diag. reflexivity.
  - intros j cj mj Hj Hl. rewrite lookup_app_l in Hl by exact Hj.
    exact (Hno j cj mj Hl).
Qed.

(** A pause does not look at the registered conditions. *)
Lemma handle_pause_with_conditions l a msg (w : World) :
  handle_pause a msg (with_conditions l w) =
  (result_of (handle_pause a msg w),
   with_conditions l (world_of (handle_pause a msg w))).
Proof.
  unfold handle_pause, bind, print, self, get_input, set_user_input,
    set_paused, input, raise. cbn.
  destruct (String.eqb _ "console"); cbn.
  - destruct (stdin w); reflexivity.
  - destruct (String.eqb _ "web"); reflexivity.
Qed.

(** What a pause leaves on the console: the banner, then the prompt when
    the console was asked, then the notice when a line came. *)
Lemma handle_pause_stdout a msg (w : World) :
  exists tail,
    stdout (world_of (handle_pause a msg w)) =
    stdout w ++ pause_banner msg ++ tail.
Proof.
  unfold handle_pause, bind, print, self, get_input, set_user_input,
    set_paused, input, raise. cbn.
  destruct (String.eqb _ "console"); cbn.
  - destruct (stdin w); cbn; eexists;
      repeat rewrite <- app_assoc; cbn; reflexivity.
  - destruct (String.eqb _ "web"); cbn; exists [];
      repeat rewrite <- app_assoc; cbn; reflexivity.
Qed.

(** X1. Registering a condition commutes with an evaluation that an
    earlier condition decides: the evaluation after the registration has
    the outcome of the evaluation before it, and ends in the state the
    registration would have produced afterwards. *)
Theorem registration_keeps_earlier_match (w : World) (c : Condition)
    (m : string) (agent_obj : Agent) (k : nat) (message : string) :
  first_match (pause_conditions (hook w)) agent_obj k message ->
  check_pause_condition agent_obj (world_of (add_pause_condition c m w)) =
  (result_of (check_pause_condition agent_obj w),
   with_conditions (pause_conditions (hook w) ++ [(c, m)])
     (world_of (check_pause_condition agent_obj w))).
Proof.
  intros Hfirst.
  rewrite !check_unfold.
  rewrite (check_from_first_match _ _ _ _ Hfirst).
  cbn [world_of snd add_pause_condition hook set_hook pause_conditions
       with_pause_conditions].
  rewrite (check_from_first_match _ _ _ _
             (first_match_app _ [(c, m)] _ _ _ Hfirst)).
  unfold bind at 1 2 3, set_paused.
  exact (handle_pause_with_conditions
           (pause_conditions (hook w) ++ [(c, m)]) agent_obj message
           (set_hook (with_paused true (hook w))
              (set_invoked (invoked w ++ seq 0 (S k)) w))).
Qed.

(** X2. A condition registered last is reached exactly when every earlier
    condition returns false: it is then awaited after all of them, and
    when it holds the banner of its message is what the console shows
    next. *)
Theorem registered_last_is_awaited_last (w : World) (c : Condition)
    (m : string) (agent_obj : Agent) :
  no_match (pause_conditions (hook w)) agent_obj ->
  c agent_obj = Return true ->
  invoked (world_of (check_pause_condition agent_obj
                       (world_of (add_pause_condition c m w)))) =
    invoked w ++ seq 0 (S (length (pause_conditions (hook w)))) /\
  exists tail,
    stdout (world_of (check_pause_condition agent_obj
                        (world_of (add_pause_condition c m w)))) =
    stdout w ++ pause_banner m ++ tail.
Proof.
  intros Hno Hc.
  pose proof (first_match_last _ c m _ Hno Hc) as Hfirst.
  rewrite check_unfold.
  cbn [world_of snd add_pause_condition hook set_hook pause_conditions
       with_pause_conditions].
  rewrite (check_from_first_match _ _ _ _ Hfirst).
  unfold bind at 1 2, set_paused. split.
  - rewrite keeps_invoked_handle_pause. reflexivity.
  - match goal with |- context [handle_pause _ _ ?w0] =>
      destruct (handle_pause_stdout agent_obj m w0) as [tail Ht]
    end.
    exists tail. exact Ht.
Qed.

(** ** A condition that raises *)

Lemma check_from_first_raise conds a :
  forall k e, first_raise conds a k e ->
  forall i (w : World),
    check_from i conds a w =
    (Raise e, set_invoked (invoked w ++ seq i (S k)) w).
Proof.
  induction conds as [|[c m] rest IH];
    intros k e [(ck & mk & Hk & Hck) Hbefore] i w.
  - rewrite lookup_nil in Hk. discriminate.
  - rewrite check_from_cons. destruct k as [|k]; cbn in Hk.
    + injection Hk as -> ->. rewrite Hck. reflexivity.
    + rewrite (Hbefore 0 c m ltac:(apply Nat.lt_0_succ) eq_refl). cbn zeta.
      rewrite (IH k e).
      * cbn [invoked set_invoked seq]. rewrite <- app_assoc. reflexivity.
      * split; [exists ck, mk; auto|].
        intros j cj mj Hj Hl. apply (Hbefore (S j) cj mj); [|exact Hl].
        apply (proj1 (Nat.succ_lt_mono j k)). exact Hj.
Qed.

(** X3. When the conditions before position k return false and the one at
    position k raises, the evaluation raises the same exception at once:
    the hook and the console are untouched, and no later condition is
    awaited. *)
Theorem condition_error_propagates (w : World) (agent_obj : Agent)
    (k : nat) (e : exn) :
  first_raise (pause_conditions (hook w)) agent_obj k e ->
  check_pause_condition agent_obj w =
  (Raise e, set_invoked (invoked w ++ seq 0 (S k)) w).
Proof.
  intros Hraise. rewrite check_unfold.
  apply check_from_first_raise. exact Hraise.
Qed.

(** X18. When no condition holds, the evaluation awaits every registered
    condition once, in registration order, returns normally, and changes
    nothing else. *)
Theorem no_match_awaits_all (w : World) (agent_obj : Agent) :
  no_match (pause_conditions (hook w)) agent_obj ->
  check_pause_condition agent_obj w =
  (Return tt,
   set_invoked (invoked w ++ seq 0 (length (pause_conditions (hook w)))) w).
Proof.
  intros Hno. rewrite check_unfold. apply check_from_no_match. exact Hno.
Qed.

(** ** What a pause does with the console *)

(** X4. With an input handler that is not the console one, every step in
    which a condition matches shows the banner and raises:
    [NotImplementedError] for the kind web, [ValueError] naming the kind
    otherwise. Nothing is asked on the console, no line is read, and
    [user_input] keeps its value. *)
Theorem pause_without_console_raises (w : World) (agent_obj : Agent)
    (k : nat) (message : string) :
  first_match (pause_conditions (hook w)) agent_obj k message ->
  input_method (input_handler (hook w)) <> "console" ->
  result_of (check_pause_condition agent_obj w) =
    Raise (if String.eqb (input_method (input_handler (hook w))) "web"
           then NotImplementedError "Web-based input not yet implemented"
           else ValueError ("Unknown input method: " +:+
                            input_method (input_handler (hook w)))) /\
  stdout (world_of (check_pause_condition agent_obj w)) =
    stdout w ++ pause_banner message /\
  stdin (world_of (check_pause_condition agent_obj w)) = stdin w /\
  user_input (hook (world_of (check_pause_condition agent_obj w))) =
    user_input (hook w).
Proof.
  intros Hfirst Hkind. rewrite check_unfold.
  rewrite (check_from_first_match _ _ _ _ Hfirst).
  unfold handle_pause, bind, print, self, get_input, set_user_input,
    set_paused, input, raise. cbn.
  destruct (String.eqb_spec (input_method (input_handler (hook w)))
              "console") as [Heq|_]; [contradiction|].
  destruct (String.eqb _ "web"); cbn;
    repeat rewrite <- app_assoc; repeat split.
Qed.

(** X5. A console pause reads exactly one line: the step returns, the
    console has lost its first line, which is now [user_input], and the
    output has grown by the banner, the prompt and the notice that the
    execution continues. *)
Theorem console_pause_reads_one_line (w : World) (agent_obj : Agent)
    (k : nat) (message line : string) (rest : list string) :
  first_match (pause_conditions (hook w)) agent_obj k message ->
  input_method (input_handler (hook w)) = "console" ->
  stdin w = line :: rest ->
  result_of (check_pause_condition agent_obj w) = Return tt /\
  stdin (world_of (check_pause_condition agent_obj w)) = rest /\
  stdout (world_of (check_pause_condition agent_obj w)) =
    stdout w ++ pause_banner message ++
    ["Enter your input: "; ("Continuing execution..." +:+ nl) +:+ nl] /\
  user_input (hook (world_of (check_pause_condition agent_obj w))) =
    Some line.
Proof.
  intros Hfirst Hm Hin. rewrite check_unfold.
  rewrite (check_from_first_match _ _ _ _ Hfirst).
  unfold bind, set_paused.
  erewrite handle_pause_console by (cbn; eassumption).
  repeat split.
Qed.

(** X6. A console pause at the end of the input: the banner and the prompt
    are shown, the step raises [EOFError], and [user_input] keeps its
    value. *)
Theorem console_pause_at_end_of_input (w : World) (agent_obj : Agent)
    (k : nat) (message : string) :
  first_match (pause_conditions (hook w)) agent_obj k message ->
  input_method (input_handler (hook w)) = "console" ->
  stdin w = [] ->
  result_of (check_pause_condition agent_obj w) = Raise EOFError /\
  stdout (world_of (check_pause_condition agent_obj w)) =
    stdout w ++ pause_banner message ++ ["Enter your input: "] /\
  user_input (hook (world_of (check_pause_condition agent_obj w))) =
    user_input (hook w).
Proof.
  intros Hfirst Hm Hin. rewrite check_unfold.
  rewrite (check_from_first_match _ _ _ _ Hfirst).
  unfold handle_pause, bind, print, self, get_input, set_user_input,
    set_paused, input, raise. cbn.
  rewrite Hm. cbn. rewrite Hin. cbn.
  repeat rewrite <- app_assoc. repeat split.
Qed.

End MoreHookProperties.

(** ** The detectors *)

(** All markers [detect_password_field] looks for, in the order of its
    three methods. *)
Definition password_markers : list string :=
  [password_marker; "type='password'"] ++
  PasswordFieldDetector.password_indicators ++
  PasswordFieldDetector.password_labels.

Lemma any_in_app (l1 l2 : list string) (text : string) :
  any_in (l1 ++ l2) text = any_in l1 text || any_in l2 text.
Proof. unfold any_in. apply existsb_app. Qed.

Lemma detect_password_field_any (a : Agent) (page : string) :
  get_page_html (browser_context a) = Return page ->
  PasswordFieldDetector.detect_password_field a =
  Return (any_in password_markers page).
Proof.
  intros Hpage. unfold PasswordFieldDetector.detect_password_field.
  rewrite Hpage. unfold password_markers. rewrite !any_in_app.
  change (any_in [password_marker; "type='password'"] page)
    with (contains password_marker page ||
          (contains "type='password'" page || false)).
  rewrite orb_false_r. fold password_marker.
  destruct (contains password_marker page || contains "type='password'" page);
    [reflexivity|].
  destruct (any_in PasswordFieldDetector.password_indicators page);
    [reflexivity|].
  destruct (any_in PasswordFieldDetector.password_labels page); reflexivity.
Qed.

(** X7. The detector sees every password field the basic condition sees:
    whenever [PauseConditions.password_field] returns true,
    [detect_password_field] returns true. *)
Theorem detector_subsumes_password_field (a : Agent) :
  PauseConditions.password_field a = Return true ->
  PasswordFieldDetector.detect_password_field a = Return true.
Proof.
  unfold PauseConditions.password_field,
    PasswordFieldDetector.detect_password_field.
  destruct (get_page_html (browser_context a)) as [page|e]; [|discriminate].
  intros H.
  assert (Hc : contains ("type=" +:+ dquote +:+ "password" +:+ dquote) page
               = true) by congruence.
  rewrite Hc. reflexivity.
Qed.

(** X8. When the page is retrieved, [detect_password_field] returns true
    exactly when the page, as written, contains one of its markers; it is
    a case-sensitive test. *)
Theorem detect_password_field_spec (a : Agent) (page : string) :
  get_page_html (browser_context a) = Return page ->
  (PasswordFieldDetector.detect_password_field a = Return true <->
   exists marker pre post,
     In marker password_markers /\ page = pre +:+ marker +:+ post) /\
  (PasswordFieldDetector.detect_password_field a = Return false <->
   forall marker, In marker password_markers ->
                  contains marker page = false).
Proof.
  intros Hpage. rewrite (detect_password_field_any a page Hpage). split.
  - split.
    + intros H0.
      assert (H : any_in password_markers page = true) by congruence.
      apply any_in_spec in H as (mk & Hin & Hc).
      apply contains_spec in Hc as (pre & post & Hc). eauto.
    + intros (mk & pre & post & Hin & Hc). f_equal.
      apply any_in_spec. exists mk. split; [exact Hin|].
      apply contains_spec. eauto.
  - split.
    + intros H0 mk Hin.
      assert (H : any_in password_markers page = false) by congruence.
      destruct (contains mk page) eqn:Hc; [|reflexivity].
      assert (any_in password_markers page = true)
        by (apply any_in_spec; eauto).
      congruence.
    + intros Hall. f_equal.
      destruct (any_in password_markers page) eqn:H; [|reflexivity].
      apply any_in_spec in H as (mk & Hin & Hc).
      rewrite (Hall mk Hin) in Hc. discriminate.
Qed.

(** *** The dict of [detect_sensitive_page] *)

Lemma mark_lookup_eq key hit (results : gmap string bool) :
  results !! key = Some false ->
  SensitivePageDetector.mark key hit results !! key = Some hit.
Proof.
  intros H. unfold SensitivePageDetector.mark. destruct hit; [|exact H].
  apply lookup_insert_eq.
Qed.

Lemma mark_lookup_ne key key' hit (results : gmap string bool) :
  key <> key' ->
  SensitivePageDetector.mark key hit results !! key' = results !! key'.
Proof.
  intros H. unfold SensitivePageDetector.mark. destruct hit; [|reflexivity].
  apply lookup_insert_ne. exact H.
Qed.

(** The keys of the result. *)
Definition sensitive_keys : list string :=
  ["login_page"; "payment_page"; "personal_info_page";
   "two_factor_auth_page"].

(** The entries of the dict, key by key. *)
Lemma detect_sensitive_page_entries (a : Agent) :
  match get_page_html (browser_context a) with
  | Raise e => SensitivePageDetector.detect_sensitive_page a = Raise e
  | Return page =>
      exists results,
        SensitivePageDetector.detect_sensitive_page a = Return results /\
        results !! "login_page" =
          Some (any_in SensitivePageDetector.login_indicators
                  (lower (current_url (browser_context a)))) /\
        results !! "payment_page" =
          Some (any_in_either SensitivePageDetector.payment_indicators
                  (current_url (browser_context a)) page) /\
        results !! "personal_info_page" =
          Some (any_in_either SensitivePageDetector.personal_info_indicators
                  (current_url (browser_context a)) page) /\
        results !! "two_factor_auth_page" =
          Some (any_in_either SensitivePageDetector.two_factor_indicators
                  (current_url (browser_context a)) page) /\
        forall key, ~ In key sensitive_keys -> results !! key = None
  end.
Proof.
  unfold SensitivePageDetector.detect_sensitive_page.
  destruct (get_page_html (browser_context a)) as [page|e]; [|reflexivity].
  eexists. split; [reflexivity|]. cbn zeta.
  repeat split.
  - rewrite !mark_lookup_ne by discriminate.
    apply mark_lookup_eq. apply lookup_insert_eq.
  - rewrite !mark_lookup_ne by discriminate.
    apply mark_lookup_eq.
    rewrite mark_lookup_ne by discriminate.
    rewrite lookup_insert_ne by discriminate. apply lookup_insert_eq.
  - rewrite !mark_lookup_ne by discriminate.
    apply mark_lookup_eq.
    rewrite !mark_lookup_ne by discriminate.
    rewrite !lookup_insert_ne by discriminate. apply lookup_insert_eq.
  - apply mark_lookup_eq.
    rewrite !mark_lookup_ne by discriminate.
    rewrite !lookup_insert_ne by discriminate. apply lookup_insert_eq.
  - intros key Hkey. unfold sensitive_keys in Hkey. cbn in Hkey.
    rewrite !mark_lookup_ne by (intros <-; tauto).
    rewrite !lookup_insert_ne by (intros <-; tauto).
    apply lookup_empty.
Qed.

(** X9. When the page is retrieved, [detect_sensitive_page] returns a
    dict with exactly the four keys login_page, payment_page,
    personal_info_page and two_factor_auth_page; login_page tells whether
    the lower-cased URL contains a login keyword, and each of the others
    whether the lower-cased URL or the lower-cased page contains one of
    its keywords. When the retrieval fails, the exception is raised. *)
Theorem detect_sensitive_page_spec (a : Agent) :
  match get_page_html (browser_context a) with
  | Raise e => SensitivePageDetector.detect_sensitive_page a = Raise e
  | Return page =>
      exists results,
        SensitivePageDetector.detect_sensitive_page a = Return results /\
        results !! "login_page" =
          Some (any_in SensitivePageDetector.login_indicators
                  (lower (current_url (browser_context a)))) /\
        results !! "payment_page" =
          Some (any_in_either SensitivePageDetector.payment_indicators
                  (current_url (browser_context a)) page) /\
        results !! "personal_info_page" =
          Some (any_in_either SensitivePageDetector.personal_info_indicators
                  (current_url (browser_context a)) page) /\
        results !! "two_factor_auth_page" =
          Some (any_in_either SensitivePageDetector.two_factor_indicators
                  (current_url (browser_context a)) page) /\
        forall key, ~ In key sensitive_keys -> results !! key = None
  end.
Proof. exact (detect_sensitive_page_entries a). Qed.

Lemma any_in_incl (l1 l2 : list string) (text : string) :
  incl l1 l2 -> any_in l1 text = true -> any_in l2 text = true.
Proof.
  intros Hincl H. apply any_in_spec in H as (kw & Hin & Hc).
  apply any_in_spec. exists kw. split; [apply Hincl; exact Hin|exact Hc].
Qed.

Lemma any_in_either_intro (l : list string) (kw page_url page : string) :
  In kw l -> contains kw (lower page) = true ->
  any_in_either l page_url page = true.
Proof.
  intros Hin Hc. unfold any_in_either. apply existsb_exists.
  exists kw. split; [exact Hin|]. rewrite Hc. apply orb_true_r.
Qed.

(** X10. The page detector agrees with the pause conditions where they
    look for the same thing: its two_factor_auth_page entry is the result
    of [two_factor_auth], and its login_page entry is true whenever
    [PauseConditions.login_page] returns true. *)
Theorem sensitive_page_agrees_with_conditions (a : Agent)
    (results : gmap string bool) :
  SensitivePageDetector.detect_sensitive_page a = Return results ->
  (exists flag,
     results !! "two_factor_auth_page" = Some flag /\
     AdvancedPauseConditions.two_factor_auth a = Return flag) /\
  (PauseConditions.login_page a = Return true ->
   results !! "login_page" = Some true).
Proof.
  intros Hres. pose proof (detect_sensitive_page_entries a) as Hspec.
  unfold AdvancedPauseConditions.two_factor_auth, PauseConditions.login_page.
  destruct (get_page_html (browser_context a)) as [page|e];
    [|rewrite Hspec in Hres; discriminate].
  destruct Hspec as (r & Hr & Hlogin & _ & _ & Htwo & _).
  assert (r = results) by congruence. subst r. split.
  - eexists. split; [exact Htwo|reflexivity].
  - intros H0. rewrite Hlogin. f_equal.
    assert (H : any_in ["login"; "signin"; "auth"]
                  (lower (current_url (browser_context a))) = true)
      by congruence.
    revert H. apply any_in_incl. intros kw Hkw. cbn in Hkw |- *. tauto.
Qed.

(** X11. Of the payment forms [payment_form] recognises, the page detector
    misses only those it recognises by debit card or expiry date: when
    [payment_form] returns true, the payment_page entry is true, or the
    lower-cased page contains one of these two keywords. *)
Theorem payment_page_misses_only (a : Agent) (results : gmap string bool)
    (page : string) :
  get_page_html (browser_context a) = Return page ->
  SensitivePageDetector.detect_sensitive_page a = Return results ->
  AdvancedPauseConditions.payment_form a = Return true ->
  results !! "payment_page" = Some true \/
  contains "debit card" (lower page) = true \/
  contains "expiry date" (lower page) = true.
Proof.
  intros Hpage Hres Hform. pose proof (detect_sensitive_page_entries a) as Hspec.
  unfold AdvancedPauseConditions.payment_form in Hform.
  rewrite Hpage in Hspec, Hform.
  destruct Hspec as (r & Hr & _ & Hpay & _).
  assert (r = results) by congruence. subst r.
  assert (H : any_in AdvancedPauseConditions.payment_indicators (lower page)
              = true) by congruence.
  apply any_in_spec in H as (kw & Hin & Hc).
  assert (Hhit : forall kw', In kw' SensitivePageDetector.payment_indicators ->
                 contains kw' (lower page) = true ->
                 results !! "payment_page" = Some true).
  { intros kw' Hin' Hc'. rewrite Hpay. f_equal.
    eapply any_in_either_intro; eassumption. }
  cbn in Hin.
  destruct Hin as [<-|[<-|[<-|[<-|[<-|[<-|[<-|[<-|[]]]]]]]]].
  - left. apply (Hhit "credit card"); [cbn; tauto|exact Hc].
  - right. left. exact Hc.
  - left. apply (Hhit "card number"); [cbn; tauto|exact Hc].
  - left. apply (Hhit "cvv"); [cbn; tauto|exact Hc].
  - left. apply (Hhit "cvc"); [cbn; tauto|exact Hc].
  - left. apply (Hhit "expiration date"); [cbn; tauto|exact Hc].
  - right. right. exact Hc.
  - left. apply (Hhit "billing"); [cbn; tauto|].
    apply contains_spec in Hc as (pre & post & Hc).
    apply contains_spec. exists pre, (" address" +:+ post). exact Hc.
Qed.

(** X12. [detect_sensitive_page] ignores letter case: for two agents whose
    URLs and pages differ only in letter case it returns the same dict,
    or raises the same exception. *)
Theorem detect_sensitive_page_ignores_case (a b : Agent) :
  agent_case_variant a b ->
  SensitivePageDetector.detect_sensitive_page a =
  SensitivePageDetector.detect_sensitive_page b.
Proof.
  intros [Hurl Hpage]. apply case_variant_lower in Hurl.
  unfold SensitivePageDetector.detect_sensitive_page, any_in_either.
  unfold page_case_variant in Hpage.
  destruct (get_page_html (browser_context a)) as [s|e],
           (get_page_html (browser_context b)) as [t|e'];
    try contradiction.
  - apply case_variant_lower in Hpage. rewrite Hurl, Hpage. reflexivity.
  - subst e'. reflexivity.
Qed.

(** X13. A failed page retrieval is raised by every condition and detector
    that reads the page, also by [two_factor_auth] and
    [detect_sensitive_page] whose URL alone could decide; [login_page]
    reads only the URL and returns all the same. *)
Theorem page_failure_is_raised (a : Agent) (e : exn) :
  get_page_html (browser_context a) = Raise e ->
  PauseConditions.password_field a = Raise e /\
  AdvancedPauseConditions.payment_form a = Raise e /\
  AdvancedPauseConditions.two_factor_auth a = Raise e /\
  AdvancedPauseConditions.captcha a = Raise e /\
  AdvancedPauseConditions.personal_information_form a = Raise e /\
  PasswordFieldDetector.detect_password_field a = Raise e /\
  SensitivePageDetector.detect_sensitive_page a = Raise e /\
  PauseConditions.login_page a =
    Return (any_in ["login"; "signin"; "auth"]
              (lower (current_url (browser_context a)))).
Proof.
  intros H.
  unfold PauseConditions.password_field,
    AdvancedPauseConditions.payment_form,
    AdvancedPauseConditions.two_factor_auth, AdvancedPauseConditions.captcha,
    AdvancedPauseConditions.personal_information_form,
    PasswordFieldDetector.detect_password_field,
    SensitivePageDetector.detect_sensitive_page, PauseConditions.login_page.
  rewrite H. repeat split.
Qed.

(** ** The pause manager *)

Section ManagerProperties.

Context {float : Type}.

Local Abbreviation World := (World float).
Local Abbreviation M := (M float).

Variable json_dumps : list (PauseEvent float) -> string.

Lemma record_all_cons p rest (w : World) :
  record_all (p :: rest) w = record_all rest (recorded p w).
Proof. reflexivity. Qed.

Lemma record_all_history (pauses : list (pause_record (float := float))) :
  forall w : World,
    record_all pauses w =
    (Return tt, world_of (record_all pauses w)) /\
    pause_history (manager (world_of (record_all pauses w))) =
      pause_history (manager w) ++ map event_of pauses /\
    input_history (manager (world_of (record_all pauses w))) =
      input_history (manager w) /\
    beside_manager (world_of (record_all pauses w)) = beside_manager w.
Proof.
  induction pauses as [|p rest IH]; intros w.
  - cbn. rewrite app_nil_r. repeat split.
  - rewrite record_all_cons.
    destruct (IH (recorded p w)) as (Hrun & Hhist & Hin & Hside).
    split; [exact Hrun|]. rewrite Hhist, Hin, Hside.
    cbn. rewrite <- app_assoc. repeat split.
Qed.

(** X14. The history is append-only and in call order: after the pauses
    have been recorded one after the other, [get_pause_history] returns
    the events that were there before, unchanged, followed by one event
    per call in the order of the calls, each with the clock reading of its
    call; nothing but the history has changed. *)
Theorem history_grows_in_call_order
    (pauses : list (pause_record (float := float))) (w : World) :
  result_of (record_all pauses w) = Return tt /\
  result_of (get_pause_history (world_of (record_all pauses w))) =
    Return (pause_history (manager w) ++ map event_of pauses) /\
  length (pause_history (manager (world_of (record_all pauses w)))) =
    length (pause_history (manager w)) + length pauses /\
  beside_manager (world_of (record_all pauses w)) = beside_manager w.
Proof.
  destruct (record_all_history pauses w) as (Hrun & Hhist & _ & Hside).
  split; [rewrite Hrun; reflexivity|].
  split; [unfold get_pause_history; cbn; rewrite Hhist; reflexivity|].
  split; [|exact Hside].
  rewrite Hhist, length_app, length_map. reflexivity.
Qed.

(** X15. [record_pause] keeps of the input only whether it is empty: two
    calls with the same url and reason and two non-empty inputs leave the
    same state, in which the new event has [input_provided] true. *)
Theorem record_pause_forgets_input (w : World)
    (page_url why typed typed' : string) :
  typed <> EmptyString -> typed' <> EmptyString ->
  record_pause page_url why typed w = record_pause page_url why typed' w /\
  last (pause_history (manager (world_of
                                  (record_pause page_url why typed w)))) =
    Some {| url := page_url; reason := why; input_provided := true;
            timestamp := loop_time w |}.
Proof.
  intros H1 H2.
  destruct typed as [|c s]; [contradiction|].
  destruct typed' as [|c' s']; [contradiction|].
  split; [reflexivity|].
  cbn. apply last_snoc.
Qed.

(** What a save writes and what it leaves alone. *)
Lemma save_history_effect (w : World) (filename : string) :
  result_of (save_history json_dumps filename w) = Return tt /\
  files (world_of (save_history json_dumps filename w)) !! filename =
    Some (json_dumps (pause_history (manager w))) /\
  (forall other, other <> filename ->
     files (world_of (save_history json_dumps filename w)) !! other =
     files w !! other) /\
  manager (world_of (save_history json_dumps filename w)) = manager w /\
  hook (world_of (save_history json_dumps filename w)) = hook w /\
  stdout (world_of (save_history json_dumps filename w)) = stdout w.
Proof.
  unfold save_history, bind, get_pause_history, write_text. cbn.
  repeat split.
  - apply lookup_insert_eq.
  - intros other Hne. apply lookup_insert_ne. congruence.
Qed.

(** X16. [save_history] replaces the file: it returns, the file at
    [filename] then holds the text of the whole current history, whatever
    it held before, every other file is as it was, and neither the
    manager nor the hook nor the console has changed. *)
Theorem save_history_replaces_file (w : World) (filename : string) :
  result_of (save_history json_dumps filename w) = Return tt /\
  files (world_of (save_history json_dumps filename w)) !! filename =
    Some (json_dumps (pause_history (manager w))) /\
  (forall other, other <> filename ->
     files (world_of (save_history json_dumps filename w)) !! other =
     files w !! other) /\
  manager (world_of (save_history json_dumps filename w)) = manager w /\
  hook (world_of (save_history json_dumps filename w)) = hook w /\
  stdout (world_of (save_history json_dumps filename w)) = stdout w.
Proof. exact (save_history_effect w filename). Qed.

(** X17. A saved file is a snapshot: pauses recorded after a save do not
    reach the file, and the next save to the same name replaces the old
    text by the text of the whole longer history; saving twice in a row
    is saving once. *)
Theorem saved_file_is_a_snapshot
    (pauses : list (pause_record (float := float))) (w : World)
    (filename : string) :
  files (world_of (record_all pauses
                     (world_of (save_history json_dumps filename w))))
    !! filename = Some (json_dumps (pause_history (manager w))) /\
  files (world_of (save_history json_dumps filename
                     (world_of (record_all pauses
                                  (world_of (save_history json_dumps
                                               filename w))))))
    !! filename =
    Some (json_dumps (pause_history (manager w) ++ map event_of pauses)) /\
  save_history json_dumps filename
    (world_of (save_history json_dumps filename w)) =
  (Return tt, world_of (save_history json_dumps filename w)).
Proof.
  destruct (save_history_effect w filename)
    as (_ & Hfile & _ & Hman & _).
  split; [|split].
  - remember (world_of (save_history json_dumps filename w)) as w1 eqn:E.
    destruct (record_all_history pauses w1) as (_ & _ & _ & Hside).
    unfold beside_manager in Hside.
    assert (Hfiles : files (world_of (record_all pauses w1)) = files w1)
      by congruence.
    rewrite Hfiles. exact Hfile.
  - remember (world_of (save_history json_dumps filename w)) as w1 eqn:E.
    destruct (record_all_history pauses w1) as (_ & Hhist & _ & _).
    remember (world_of (record_all pauses w1)) as w2 eqn:E2.
    destruct (save_history_effect w2 filename) as (_ & Hfile2 & _).
    rewrite Hfile2, Hhist, Hman. reflexivity.
  - unfold save_history, bind, get_pause_history, write_text. cbn.
    unfold set_files. cbn. rewrite insert_insert_eq. reflexivity.
Qed.

End ManagerProperties.

Lemma record_pause_forgets_input_witness :
  "hunter2" <> EmptyString /\ "correct horse battery staple" <> EmptyString /\
  record_pause "https://demo.applitools.com/" "Password field detected."
    "hunter2" (demo_world "console" []) =
  record_pause "https://demo.applitools.com/" "Password field detected."
    "correct horse battery staple" (demo_world "console" []).
Proof.
  assert (H1 : "hunter2" <> EmptyString) by discriminate.
  assert (H2 : "correct horse battery staple" <> EmptyString)
    by discriminate.
  split; [exact H1|]. split; [exact H2|].
  exact (proj1 (record_pause_forgets_input (demo_world "console" [])
                  "https://demo.applitools.com/" "Password field detected."
                  "hunter2" "correct horse battery staple" H1 H2)).
Defined.

(** An empty input is told apart from a typed one. *)
Example record_pause_empty_input :
  map input_provided
    (pause_history (manager (world_of
       (record_all
          [{| pr_time := 3; pr_url := "https://a.example/login";
              pr_reason := "Login page detected."; pr_input := EmptyString |};
           {| pr_time := 7; pr_url := "https://a.example/login";
              pr_reason := "Login page detected."; pr_input := "hunter2" |}]
          (demo_world "console" []))))) = [false; true].
Proof. vm_compute. reflexivity. Qed.

(** ** The further hook properties on the demo scenario *)

Definition always : Condition := fun _ => Return true.

Definition closed_page_agent : Agent :=
  {| task := "Navigate to a website that requires login";
     browser_context :=
       {| current_url := "https://demo.applitools.com/";
          get_page_html := Raise (BrowserError "page closed") |} |}.

Lemma demo_no_match_plain : no_match demo_conditions (demo_agent plain_page).
Proof.
  intros j cj mj Hl.
  destruct j as [|[|[|j]]]; cbn in Hl; [| | |discriminate Hl];
    inversion Hl; vm_compute; reflexivity.
Defined.

Lemma demo_first_raise_closed :
  first_raise demo_conditions closed_page_agent 0
    (BrowserError "page closed").
Proof.
  split.
  - exists PauseConditions.password_field, password_message.
    split; reflexivity.
  - intros j cj mj Hj Hl. inversion Hj.
Defined.

Lemma registration_keeps_earlier_match_witness :
  first_match (pause_conditions (hook (demo_world "console" ["hunter2"])))
    (demo_agent sign_in_page) 0 password_message /\
  check_pause_condition (demo_agent sign_in_page)
    (world_of (add_pause_condition always "Always."
                 (demo_world "console" ["hunter2"]))) =
  (result_of (check_pause_condition (demo_agent sign_in_page)
                (demo_world "console" ["hunter2"])),
   with_conditions
     (pause_conditions (hook (demo_world "console" ["hunter2"])) ++
      [(always, "Always.")])
     (world_of (check_pause_condition (demo_agent sign_in_page)
                  (demo_world "console" ["hunter2"])))).
Proof.
  split; [exact demo_first_match_password|].
  exact (registration_keeps_earlier_match (demo_world "console" ["hunter2"])
           always "Always." (demo_agent sign_in_page) 0 password_message
           demo_first_match_password).
Defined.

Lemma registered_last_is_awaited_last_witness :
  no_match (pause_conditions (hook (demo_world "console" ["ok"])))
    (demo_agent plain_page) /\
  always (demo_agent plain_page) = Return true /\
  invoked (world_of (check_pause_condition (demo_agent plain_page)
                       (world_of (add_pause_condition always "Always."
                                    (demo_world "console" ["ok"]))))) =
    [0; 1; 2; 3].
Proof.
  split; [exact demo_no_match_plain|]. split; [reflexivity|].
  exact (proj1 (registered_last_is_awaited_last
                  (demo_world "console" ["ok"]) always "Always."
                  (demo_agent plain_page) demo_no_match_plain eq_refl)).
Defined.

Lemma condition_error_propagates_witness :
  first_raise (pause_conditions (hook (demo_world "console" ["hunter2"])))
    closed_page_agent 0 (BrowserError "page closed") /\
  result_of (check_pause_condition closed_page_agent
               (demo_world "console" ["hunter2"])) =
    Raise (BrowserError "page closed").
Proof.
  split; [exact demo_first_raise_closed|].
  exact (f_equal fst
           (condition_error_propagates (demo_world "console" ["hunter2"])
              closed_page_agent 0 (BrowserError "page closed")
              demo_first_raise_closed)).
Defined.

Lemma pause_without_console_raises_witness :
  first_match (pause_conditions (hook (demo_world "web" ["hunter2"])))
    (demo_agent sign_in_page) 0 password_message /\
  input_method (input_handler (hook (demo_world "web" ["hunter2"]))) <>
    "console" /\
  result_of (check_pause_condition (demo_agent sign_in_page)
               (demo_world "web" ["hunter2"])) =
    Raise (NotImplementedError "Web-based input not yet implemented") /\
  stdin (world_of (check_pause_condition (demo_agent sign_in_page)
                     (demo_world "web" ["hunter2"]))) = ["hunter2"].
Proof.
  assert (Hkind : input_method
                    (input_handler (hook (demo_world "web" ["hunter2"]))) <>
                  "console") by discriminate.
  split; [exact demo_first_match_password|]. split; [exact Hkind|].
  pose proof (pause_without_console_raises (demo_world "web" ["hunter2"])
                (demo_agent sign_in_page) 0 password_message
                demo_first_match_password Hkind) as (Hres & _ & Hin & _).
  split; [exact Hres|exact Hin].
Defined.

Lemma console_pause_reads_one_line_witness :
  first_match
    (pause_conditions (hook (demo_world "console" ["hunter2"; "next"])))
    (demo_agent sign_in_page) 0 password_message /\
  result_of (check_pause_condition (demo_agent sign_in_page)
               (demo_world "console" ["hunter2"; "next"])) = Return tt /\
  stdin (world_of (check_pause_condition (demo_agent sign_in_page)
                     (demo_world "console" ["hunter2"; "next"]))) =
    ["next"] /\
  user_input (hook (world_of (check_pause_condition
                                (demo_agent sign_in_page)
                                (demo_world "console" ["hunter2"; "next"])))) =
    Some "hunter2".
Proof.
  split; [exact demo_first_match_password|].
  pose proof (console_pause_reads_one_line
                (demo_world "console" ["hunter2"; "next"])
                (demo_agent sign_in_page) 0 password_message
                "hunter2" ["next"] demo_first_match_password eq_refl eq_refl)
    as (Hres & Hin & _ & Hu).
  split; [exact Hres|]. split; [exact Hin|exact Hu].
Defined.

Lemma console_pause_at_end_of_input_witness :
  first_match (pause_conditions (hook (demo_world "console" [])))
    (demo_agent sign_in_page) 0 password_message /\
  result_of (check_pause_condition (demo_agent sign_in_page)
               (demo_world "console" [])) = Raise EOFError /\
  user_input (hook (world_of (check_pause_condition
                                (demo_agent sign_in_page)
                                (demo_world "console" [])))) = None.
Proof.
  split; [exact demo_first_match_password|].
  pose proof (console_pause_at_end_of_input (demo_world "console" [])
                (demo_agent sign_in_page) 0 password_message
                demo_first_match_password eq_refl eq_refl)
    as (Hres & _ & Hu).
  split; [exact Hres|exact Hu].
Defined.

Lemma no_match_awaits_all_witness :
  no_match (pause_conditions (hook (demo_world "console" ["hunter2"])))
    (demo_agent plain_page) /\
  invoked (world_of (check_pause_condition (demo_agent plain_page)
                       (demo_world "console" ["hunter2"]))) = [0; 1; 2] /\
  stdin (world_of (check_pause_condition (demo_agent plain_page)
                     (demo_world "console" ["hunter2"]))) = ["hunter2"].
Proof.
  split; [exact demo_no_match_plain|].
  pose proof (no_match_awaits_all (demo_world "console" ["hunter2"])
                (demo_agent plain_page) demo_no_match_plain) as H.
  split.
  - exact (f_equal (fun r => invoked (snd r)) H).
  - exact (f_equal (fun r => stdin (snd r)) H).
Defined.

(** ** The detectors on concrete pages *)

Definition two_factor_login_agent : Agent :=
  agent_at "https://example.com/login" "Enter the verification code".

(** The dict before any detection. *)
Definition no_results : gmap string bool :=
  <["login_page" := false]>
    (<["payment_page" := false]>
       (<["personal_info_page" := false]>
          (<["two_factor_auth_page" := false]> ∅))).

Definition two_factor_login_results : gmap string bool :=
  <["two_factor_auth_page" := true]> (<["login_page" := true]> no_results).

Definition debit_card_agent : Agent :=
  agent_at "https://shop.example.com/order" "Pay by Debit Card".

Definition debit_card_results : gmap string bool := no_results.

(** Evaluates the tests of the detector on a concrete page. *)
Ltac evaluate_marks :=
  repeat match goal with
  | |- context [SensitivePageDetector.mark _ ?b _] =>
      lazymatch b with
      | true => fail
      | false => fail
      | _ => let v := eval vm_compute in b in change b with v
      end
  end.

Lemma two_factor_login_detected :
  SensitivePageDetector.detect_sensitive_page two_factor_login_agent =
  Return two_factor_login_results.
Proof.
  unfold SensitivePageDetector.detect_sensitive_page, two_factor_login_agent,
    agent_at.
  cbn [get_page_html browser_context current_url].
  evaluate_marks. reflexivity.
Defined.

Lemma debit_card_detected :
  SensitivePageDetector.detect_sensitive_page debit_card_agent =
  Return debit_card_results.
Proof.
  unfold SensitivePageDetector.detect_sensitive_page, debit_card_agent,
    agent_at.
  cbn [get_page_html browser_context current_url].
  evaluate_marks. reflexivity.
Defined.

Lemma detector_subsumes_password_field_witness :
  PauseConditions.password_field (demo_agent sign_in_page) = Return true /\
  PasswordFieldDetector.detect_password_field (demo_agent sign_in_page) =
    Return true.
Proof.
  assert (H : PauseConditions.password_field (demo_agent sign_in_page) =
              Return true) by (vm_compute; reflexivity).
  split; [exact H|].
  exact (detector_subsumes_password_field (demo_agent sign_in_page) H).
Defined.

(** A label is enough for the detector, and not for the basic condition. *)
Example detector_sees_label :
  PasswordFieldDetector.detect_password_field
    (demo_agent "<label>Password</label><input id=secret>") = Return true /\
  PauseConditions.password_field
    (demo_agent "<label>Password</label><input id=secret>") = Return false.
Proof. split; vm_compute; reflexivity. Qed.

Lemma detect_password_field_spec_witness :
  get_page_html (browser_context (demo_agent shouting_sign_in_page)) =
    Return shouting_sign_in_page /\
  (PasswordFieldDetector.detect_password_field
     (demo_agent shouting_sign_in_page) = Return false <->
   forall marker, In marker password_markers ->
                  contains marker shouting_sign_in_page = false).
Proof.
  split; [reflexivity|].
  exact (proj2 (detect_password_field_spec (demo_agent shouting_sign_in_page)
                  shouting_sign_in_page eq_refl)).
Defined.

Lemma sensitive_page_agrees_with_conditions_witness :
  SensitivePageDetector.detect_sensitive_page two_factor_login_agent =
    Return two_factor_login_results /\
  (exists flag,
     two_factor_login_results !! "two_factor_auth_page" = Some flag /\
     AdvancedPauseConditions.two_factor_auth two_factor_login_agent =
       Return flag) /\
  (PauseConditions.login_page two_factor_login_agent = Return true ->
   two_factor_login_results !! "login_page" = Some true).
Proof.
  split; [exact two_factor_login_detected|].
  exact (sensitive_page_agrees_with_conditions two_factor_login_agent
           two_factor_login_results two_factor_login_detected).
Defined.

Lemma payment_page_misses_only_witness :
  get_page_html (browser_context debit_card_agent) =
    Return "Pay by Debit Card" /\
  SensitivePageDetector.detect_sensitive_page debit_card_agent =
    Return debit_card_results /\
  AdvancedPauseConditions.payment_form debit_card_agent = Return true /\
  (debit_card_results !! "payment_page" = Some true \/
   contains "debit card" (lower "Pay by Debit Card") = true \/
   contains "expiry date" (lower "Pay by Debit Card") = true).
Proof.
  assert (Hform : AdvancedPauseConditions.payment_form debit_card_agent =
                  Return true) by (vm_compute; reflexivity).
  split; [reflexivity|]. split; [exact debit_card_detected|].
  split; [exact Hform|].
  exact (payment_page_misses_only debit_card_agent debit_card_results
           "Pay by Debit Card" eq_refl debit_card_detected Hform).
Defined.

(** The miss does happen: a page that asks for a debit card. *)
Example payment_page_misses_debit_card :
  AdvancedPauseConditions.payment_form debit_card_agent = Return true /\
  debit_card_results !! "payment_page" = Some false.
Proof. split; vm_compute; reflexivity. Qed.

Lemma detect_sensitive_page_ignores_case_witness :
  agent_case_variant
    (agent_at "https://Example.com/Login" "Enter the Verification Code")
    (agent_at "https://example.com/login" "enter the verification code") /\
  SensitivePageDetector.detect_sensitive_page
    (agent_at "https://Example.com/Login" "Enter the Verification Code") =
  SensitivePageDetector.detect_sensitive_page
    (agent_at "https://example.com/login" "enter the verification code").
Proof.
  assert (H : agent_case_variant
    (agent_at "https://Example.com/Login" "Enter the Verification Code")
    (agent_at "https://example.com/login" "enter the verification code")).
  { split; cbn; apply case_variantb_ok; vm_compute; reflexivity. }
  split; [exact H|].
  exact (detect_sensitive_page_ignores_case _ _ H).
Defined.

Lemma page_failure_is_raised_witness :
  get_page_html (browser_context closed_page_agent) =
    Raise (BrowserError "page closed") /\
  AdvancedPauseConditions.two_factor_auth closed_page_agent =
    Raise (BrowserError "page closed") /\
  SensitivePageDetector.detect_sensitive_page closed_page_agent =
    Raise (BrowserError "page closed").
Proof.
  split; [reflexivity|].
  pose proof (page_failure_is_raised closed_page_agent
                (BrowserError "page closed") eq_refl)
    as (_ & _ & H2 & _ & _ & _ & H7 & _).
  split; [exact H2|exact H7].
Defined.
